(** * instruktorji.py: registration of student tutors

    A shallow embedding of the Flask application [instruktorji.py]: the
    intake route [oddaj], the SQLite store ([init_db], [add_vnos],
    [all_vnosi], [delete_vnos]), the best-effort Google Sheets mirror
    ([_build_creds], [_get_spreadsheet], [_ensure_ws]) and the CSV export
    ([export_csv]), followed by the properties of the specification that
    concern them. *)

From Stdlib Require Import List ZArith NArith Lia Bool String Ascii.
From Stdlib Require Import Permutation Sorted DecimalString.
Import ListNotations.

(** ** Python strings *)

(** A Python [str] is a sequence of Unicode code points. *)
Definition pystr := list N.

Module Utf8.

(** Decoding of the UTF-8 bytes of a literal of the source file, as the
    Python parser does for a string literal. *)
Fixpoint decode (bs : list N) : pystr :=
  match bs with
  | [] => []
  | b0 :: t0 =>
    if (b0 <? 0x80)%N then b0 :: decode t0
    else if (b0 <? 0xE0)%N then
      match t0 with
      | b1 :: t1 =>
        N.lor (N.shiftl (N.land b0 0x1F) 6) (N.land b1 0x3F) :: decode t1
      | _ => []
      end
    else if (b0 <? 0xF0)%N then
      match t0 with
      | b1 :: b2 :: t2 =>
        N.lor (N.shiftl (N.land b0 0x0F) 12)
              (N.lor (N.shiftl (N.land b1 0x3F) 6) (N.land b2 0x3F))
        :: decode t2
      | _ => []
      end
    else
      match t0 with
      | b1 :: b2 :: b3 :: t3 =>
        N.lor (N.shiftl (N.land b0 0x07) 18)
              (N.lor (N.shiftl (N.land b1 0x3F) 12)
                     (N.lor (N.shiftl (N.land b2 0x3F) 6) (N.land b3 0x3F)))
        :: decode t3
      | _ => []
      end
  end.

(** [str.encode("utf-8")] of one code point; [None] stands for
    [UnicodeEncodeError] (a lone surrogate) or a value no [str] holds. *)
Definition encode_cp (c : N) : option (list N) :=
  if (c <? 0x80)%N then Some [c]
  else if (c <? 0x800)%N then
    Some [N.lor 0xC0 (N.shiftr c 6); N.lor 0x80 (N.land c 0x3F)]
  else if (c <? 0x10000)%N then
    if ((0xD800 <=? c) && (c <=? 0xDFFF))%N then None
    else Some [N.lor 0xE0 (N.shiftr c 12);
               N.lor 0x80 (N.land (N.shiftr c 6) 0x3F);
               N.lor 0x80 (N.land c 0x3F)]
  else if (c <? 0x110000)%N then
    Some [N.lor 0xF0 (N.shiftr c 18);
          N.lor 0x80 (N.land (N.shiftr c 12) 0x3F);
          N.lor 0x80 (N.land (N.shiftr c 6) 0x3F);
          N.lor 0x80 (N.land c 0x3F)]
  else None.

Fixpoint encode (s : pystr) : option (list N) :=
  match s with
  | [] => Some []
  | c :: t =>
    match encode_cp c, encode t with
    | Some bs, Some r => Some (bs ++ r)
    | _, _ => None
    end
  end.

(** [codecs.BOM_UTF8] *)
Definition BOM : list N := [0xEF; 0xBB; 0xBF]%N.

(** [str.encode("utf-8-sig")] *)
Definition encode_sig (s : pystr) : option (list N) :=
  option_map (app BOM) (encode s).

(** A Unicode scalar value: what UTF-8 can encode. *)
Definition scalar (c : N) : bool :=
  ((c <? 0xD800) || ((0xDFFF <? c) && (c <? 0x110000)))%N.

End Utf8.

(** The bytes of a literal, then its code points. *)
Definition bytes_of_string (s : string) : list N :=
  map N_of_ascii (list_ascii_of_string s).

Definition u (s : string) : pystr := Utf8.decode (bytes_of_string s).

(** ** Python built-ins used by the application *)

Module Py.

(** [str.isspace] on one code point: the characters [str.strip] removes
    when called without argument. *)
Definition is_space (c : N) : bool :=
  (((0x09 <=? c) && (c <=? 0x0D)) || ((0x1C <=? c) && (c <=? 0x20))
   || (c =? 0x85) || (c =? 0xA0) || (c =? 0x1680)
   || ((0x2000 <=? c) && (c <=? 0x200A))
   || (c =? 0x2028) || (c =? 0x2029) || (c =? 0x202F) || (c =? 0x205F)
   || (c =? 0x3000))%N.

Fixpoint lstrip (s : pystr) : pystr :=
  match s with
  | [] => []
  | c :: t => if is_space c then lstrip t else s
  end.

Definition rstrip (s : pystr) : pystr := rev (lstrip (rev s)).

(** [s.strip()] *)
Definition strip (s : pystr) : pystr := rstrip (lstrip s).

(** Truth value of a [str]: non-empty. *)
Definition truthy (s : pystr) : bool :=
  match s with [] => false | _ :: _ => true end.

(** Truth value of a list: non-empty. *)
Definition truthy_list {A} (xs : list A) : bool :=
  match xs with [] => false | _ :: _ => true end.

(** [all(xs)] on a list of strings. *)
Definition all (xs : list pystr) : bool := forallb truthy xs.

(** [a == b] on strings. *)
Fixpoint eqb (a b : pystr) : bool :=
  match a, b with
  | [], [] => true
  | x :: a', y :: b' => (x =? y)%N && eqb a' b'
  | _, _ => false
  end.

(** [sep.join(xs)] *)
Fixpoint join (sep : pystr) (xs : list pystr) : pystr :=
  match xs with
  | [] => []
  | [x] => x
  | x :: t => x ++ sep ++ join sep t
  end.

(** [str(n)] for an [int]. *)
Definition str_of_int (z : Z) : pystr :=
  map N_of_ascii
      (list_ascii_of_string (NilZero.string_of_int (Z.to_int z))).

(** The values the application passes around besides strings. *)
Inductive value :=
| None_
| Bool (b : bool)
| Int (z : Z)
| Str (s : pystr).

End Py.

(** ** Configuration constants *)

Definition SHEET_ID : pystr := u "1pRGqMwog7XULSUzz-P7nEBKptHxZ9yZ6DcVDyyzz-GA".
Definition WS_TITLE : pystr := u "Instruktorji".
Definition HEADERS : list pystr :=
  [u "Datum"; u "Ime"; u "Priimek"; u "E-pošta"; u "Razred"; u "Oddelek";
   u "Predmeti (učitelj)"].
Definition ADMIN_PASS : pystr := u "instruktorji2025".

(** The subject catalog: (code, label) pairs in their fixed order. *)
Definition PREDMETI : list (pystr * pystr) :=
  [ (u "mat", u "Matematika"); (u "fiz", u "Fizika"); (u "ang", u "Angleščina");
    (u "inf", u "Informatika"); (u "kem", u "Kemija"); (u "nem", u "Nemščina");
    (u "slo", u "Slovenščina"); (u "bio", u "Biologija"); (u "zgod", u "Zgodovina");
    (u "geo", u "Geografija"); (u "spa", u "Španščina"); (u "ita", u "Italijanščina");
    (u "fra", u "Francoščina") ].

(** The options of the two [<select>] elements of FORM_HTML. *)
Definition RAZREDI : list pystr :=
  [u "1. letnik"; u "2. letnik"; u "3. letnik"; u "4. letnik"].
Definition ODDELKI : list pystr := [u "a"; u "b"; u "c"; u "d"; u "e"; u "f"].

(** ** The request form *)

(** [request.form] is a multi-dict: the pairs in the order they were
    submitted; [get] answers with the first value of a key. *)
Definition Form := list (pystr * pystr).

Fixpoint form_get (f : Form) (key : pystr) : option pystr :=
  match f with
  | [] => None
  | (k, v) :: t => if Py.eqb k key then Some v else form_get t key
  end.

(** [f.get(key, "")] *)
Definition form_get_d (f : Form) (key dflt : pystr) : pystr :=
  match form_get f key with Some v => v | None => dflt end.

(** [f.get(key) == "on"] *)
Definition is_on (f : Form) (key : pystr) : bool :=
  match form_get f key with Some v => Py.eqb v (u "on") | None => false end.

(** ** The SQLite table [instruktors] *)

Local Open Scope Z_scope.

Record Row := mkRow {
  id : Z; datum : pystr; ime : pystr; priimek : pystr; email : pystr;
  razred : pystr; oddelek : pystr; predmeti : pystr }.

(** The rows, and the counter SQLite keeps in [sqlite_sequence] for an
    AUTOINCREMENT key: the largest id the table ever held. *)
Record Table := mkTable { rows : list Row; seq : Z }.

Module Sql.

Definition MAX_ROWID : Z := 2 ^ 63 - 1.
Definition MIN_ROWID : Z := - 2 ^ 63.

(** An [int] that SQLite can take as a parameter: a signed 64-bit integer. *)
Definition fits_int64 (z : Z) : bool := (MIN_ROWID <=? z) && (z <=? MAX_ROWID).

Definition max_id (rs : list Row) : Z :=
  fold_right (fun r m => Z.max (id r) m) 0 rs.

(** The id AUTOINCREMENT gives to the next row. *)
Definition next_rowid (t : Table) : Z := Z.max (seq t) (max_id (rows t)) + 1.

(** INSERT INTO instruktors (datum, ..., predmeti) VALUES (?,...,?);
    [None] is SQLITE_FULL, when the ids are used up. *)
Definition insert (d i p e r o s : pystr) (t : Table) : option Table :=
  let n := next_rowid t in
  if n <=? MAX_ROWID then
    Some {| rows := rows t ++ [mkRow n d i p e r o s]; seq := n |}
  else None.

(** DELETE FROM instruktors WHERE id = ? *)
Definition delete (row_id : Z) (t : Table) : Table :=
  {| rows := filter (fun r => negb (id r =? row_id)) (rows t); seq := seq t |}.

Fixpoint insert_desc (r : Row) (rs : list Row) : list Row :=
  match rs with
  | [] => [r]
  | x :: t => if id x <=? id r then r :: rs else x :: insert_desc r t
  end.

(** SELECT id, ..., predmeti FROM instruktors ORDER BY id DESC *)
Definition select_desc (t : Table) : list Row :=
  fold_right insert_desc [] (rows t).

End Sql.

Arguments Sql.fits_int64 : simpl never.

(** ** Effects: the world around a request *)

Inductive Exn :=
| SqliteError          (* sqlite3.Error of connect, execute, commit, close *)
| RuntimeError         (* raised by _build_creds *)
| WorksheetNotFound    (* gspread.exceptions.WorksheetNotFound *)
| SheetsError          (* any other exception of gspread, google-auth, json *)
| UnicodeEncodeError
| OverflowError.       (* Python int too large to convert to SQLite INTEGER *)

Inductive Level := INFO | WARNING | ERROR.

Inductive Stmt :=
| CreateTable
| Insert (d i p e r o s : pystr)
| SelectAll
| Delete (row_id : Z).

Inductive SheetsCall :=
| Authorize
| OpenByKey (key : pystr)
| Worksheet (title : pystr)
| AddWorksheet (title : pystr) (nrows ncols : Z)
| GetAllValues
| AppendRow (values : list pystr).

(** What a request does, in the order it does it. *)
Inductive Event :=
| EvConnect (h : nat)
| EvExecute (h : nat) (q : Stmt)
| EvCommit (h : nat)
| EvClose (h : nat)
| EvSheets (c : SheetsCall)
| EvLog (l : Level) (msg : string)
| EvFlash (msg cat : pystr).

(** The state that outlives a request: the database file, the connections
    that are open, the module globals [_gs_client] and [_gs_spread], the
    worksheet of the shared spreadsheet, and the history of events. *)
Record World := mkWorld {
  table : option Table;          (* None: the table does not exist yet *)
  open_conns : list nat;
  next_conn : nat;
  gs_client : bool;              (* _gs_client is not None *)
  gs_spread : bool;              (* _gs_spread is not None *)
  sheet : option (list (list pystr));   (* None: no worksheet WS_TITLE *)
  trace : list Event }.

(** What the outside does to one request: the clock, and which of the calls
    to SQLite and to the spreadsheet service fail. *)
Record Env := mkEnv {
  now_db : pystr;                (* datetime.now().strftime(...) in add_vnos *)
  now_sheet : pystr;             (* the same call in oddaj *)
  connect_ok : bool; execute_ok : bool; commit_ok : bool; close_ok : bool;
  secret_isfile : bool; local_isfile : bool; env_json : bool;
  creds_ok : bool; authorize_ok : bool; open_ok : bool;
  worksheet_ok : bool; add_worksheet_ok : bool; get_values_ok : bool;
  header_append_ok : bool; row_append_ok : bool }.

Inductive Result (A : Type) :=
| Ok (a : A)
| Raise (e : Exn).
Arguments Ok {A} a.
Arguments Raise {A} e.

Definition M (A : Type) : Type := Env -> World -> Result A * World.

Definition ret {A} (a : A) : M A := fun _ w => (Ok a, w).

Definition bind {A B} (c : M A) (k : A -> M B) : M B :=
  fun env w =>
    match c env w with
    | (Ok a, w') => k a env w'
    | (Raise e, w') => (Raise e, w')
    end.

Definition raise {A} (e : Exn) : M A := fun _ w => (Raise e, w).

(** try: body / except Exception as e: handler e *)
Definition try_except {A} (body : M A) (handler : Exn -> M A) : M A :=
  fun env w =>
    match body env w with
    | (Ok a, w') => (Ok a, w')
    | (Raise e, w') => handler e env w'
    end.

Notation "x <- c1 ;; c2" := (bind c1 (fun x => c2))
  (at level 61, c1 at next level, right associativity).
Notation "c1 ;; c2" := (bind c1 (fun _ => c2))
  (at level 61, right associativity).

Definition ask {A} (proj : Env -> A) : M A := fun env w => (Ok (proj env), w).
Definition gets {A} (proj : World -> A) : M A := fun _ w => (Ok (proj w), w).
Definition modify (g : World -> World) : M unit := fun _ w => (Ok tt, g w).

Definition record_event (e : Event) (w : World) : World :=
  mkWorld (table w) (open_conns w) (next_conn w) (gs_client w)
          (gs_spread w) (sheet w) (trace w ++ [e]).

Definition emit (e : Event) : M unit := modify (record_event e).

Definition set_table (t : option Table) : M unit :=
  modify (fun w => mkWorld t (open_conns w) (next_conn w) (gs_client w)
                           (gs_spread w) (sheet w) (trace w)).

Definition set_conns (cs : list nat) (n : nat) : M unit :=
  modify (fun w => mkWorld (table w) cs n (gs_client w)
                           (gs_spread w) (sheet w) (trace w)).

Definition set_gs_client (b : bool) : M unit :=
  modify (fun w => mkWorld (table w) (open_conns w) (next_conn w) b
                           (gs_spread w) (sheet w) (trace w)).

Definition set_gs_spread (b : bool) : M unit :=
  modify (fun w => mkWorld (table w) (open_conns w) (next_conn w) (gs_client w)
                           b (sheet w) (trace w)).

Definition set_sheet (s : option (list (list pystr))) : M unit :=
  modify (fun w => mkWorld (table w) (open_conns w) (next_conn w) (gs_client w)
                           (gs_spread w) s (trace w)).

(** [log.info], [log.warning], [log.exception] *)
Definition log (l : Level) (msg : string) : M unit := emit (EvLog l msg).

(** Flask's [flash(message, category)] *)
Definition flash (msg cat : pystr) : M unit := emit (EvFlash msg cat).

(** ** sqlite3 *)

(** A connection object: its handle, and the image of the table its open
    transaction has written and not yet committed. *)
Record Connection := mkConn { handle : nat; pending : option Table }.

Fixpoint remove_conn (h : nat) (cs : list nat) : list nat :=
  match cs with
  | [] => []
  | c :: t => if Nat.eqb c h then t else c :: remove_conn h t
  end.

Module sqlite3.

(** [sqlite3.connect(DB_PATH)] *)
Definition connect : M Connection :=
  n <- gets next_conn ;;
  emit (EvConnect n) ;;
  ok <- ask connect_ok ;;
  if ok : bool then
    cs <- gets open_conns ;;
    set_conns (n :: cs) (S n) ;;
    ret (mkConn n None)
  else raise SqliteError.

(** [cur = con.cursor(); cur.execute(q, args)], with the rows
    [cur.fetchall()] would give. INSERT and DELETE open a transaction;
    CREATE TABLE is carried out at once. The statement is prepared first,
    which fails when the table is missing; then the parameters are bound,
    and an [int] out of the signed 64-bit range is refused with
    OverflowError. The texts of an INSERT are taken to be text that can be
    bound (no lone surrogate). *)
Definition execute (con : Connection) (q : Stmt) : M (Connection * list Row) :=
  emit (EvExecute (handle con) q) ;;
  ok <- ask execute_ok ;;
  if negb ok then raise SqliteError else
  stored <- gets table ;;
  match q with
  | CreateTable =>
    match stored with
    | Some _ => ret (con, [])
    | None => set_table (Some (mkTable [] 0)) ;; ret (con, [])
    end
  | _ =>
    match (match pending con with Some t => Some t | None => stored end) with
    | None => raise SqliteError            (* no such table: instruktors *)
    | Some t =>
      match q with
      | Insert d i p e r o s =>
        match Sql.insert d i p e r o s t with
        | Some t' => ret (mkConn (handle con) (Some t'), [])
        | None => raise SqliteError        (* database or disk is full *)
        end
      | Delete row_id =>
        if Sql.fits_int64 row_id then
          ret (mkConn (handle con) (Some (Sql.delete row_id t)), [])
        else raise OverflowError
      | _ => ret (con, Sql.select_desc t)
      end
    end
  end.

(** [con.commit()] *)
Definition commit (con : Connection) : M Connection :=
  emit (EvCommit (handle con)) ;;
  ok <- ask commit_ok ;;
  if negb ok then raise SqliteError else
  match pending con with
  | Some t => set_table (Some t) ;; ret (mkConn (handle con) None)
  | None => ret con
  end.

(** [con.close()]: what was not committed is rolled back. *)
Definition close (con : Connection) : M unit :=
  emit (EvClose (handle con)) ;;
  ok <- ask close_ok ;;
  if negb ok then raise SqliteError else
  cs <- gets open_conns ;;
  n <- gets next_conn ;;
  set_conns (remove_conn (handle con) cs) n.

End sqlite3.

(** ** The local store *)

Definition init_db : M Py.value :=
  con <- sqlite3.connect ;;
  r <- sqlite3.execute con CreateTable ;;
  con <- sqlite3.commit (fst r) ;;
  sqlite3.close con ;;
  log INFO "DB ready at %s" ;;
  ret Py.None_.

Definition add_vnos (ime priimek email razred oddelek predmeti_str : pystr)
  : M Py.value :=
  con <- sqlite3.connect ;;
  now <- ask now_db ;;
  r <- sqlite3.execute con
         (Insert now ime priimek email razred oddelek predmeti_str) ;;
  con <- sqlite3.commit (fst r) ;;
  sqlite3.close con ;;
  ret Py.None_.

Definition all_vnosi : M (list Row) :=
  con <- sqlite3.connect ;;
  r <- sqlite3.execute con SelectAll ;;
  let rows := snd r in
  sqlite3.close (fst r) ;;
  ret rows.

Definition delete_vnos (row_id : Z) : M Py.value :=
  con <- sqlite3.connect ;;
  r <- sqlite3.execute con (Delete row_id) ;;
  con <- sqlite3.commit (fst r) ;;
  sqlite3.close con ;;
  ret Py.None_.

(** ** The spreadsheet mirror *)

Inductive Spreadsheet := TheSpreadsheet.
Inductive WorksheetHandle := TheWorksheet.

Module gspread.

Definition call (c : SheetsCall) (ok : Env -> bool) : M unit :=
  emit (EvSheets c) ;;
  b <- ask ok ;;
  if b : bool then ret tt else raise SheetsError.

Definition authorize : M unit := call Authorize authorize_ok.

Definition open_by_key (key : pystr) : M Spreadsheet :=
  call (OpenByKey key) open_ok ;; ret TheSpreadsheet.

(** [ss.worksheet(title)] *)
Definition worksheet (ss : Spreadsheet) (title : pystr) : M WorksheetHandle :=
  call (Worksheet title) worksheet_ok ;;
  sh <- gets sheet ;;
  match sh with
  | Some _ => ret TheWorksheet
  | None => raise WorksheetNotFound
  end.

(** [ss.add_worksheet(title=..., rows=..., cols=...)] *)
Definition add_worksheet (ss : Spreadsheet) (title : pystr) (nrows ncols : Z)
  : M WorksheetHandle :=
  call (AddWorksheet title nrows ncols) add_worksheet_ok ;;
  set_sheet (Some []) ;;
  ret TheWorksheet.

(** [ws.get_all_values()] *)
Definition get_all_values (ws : WorksheetHandle) : M (list (list pystr)) :=
  call GetAllValues get_values_ok ;;
  sh <- gets sheet ;;
  match sh with
  | Some content => ret content
  | None => raise WorksheetNotFound
  end.

(** [ws.append_row(values)]; [ok] tells the call of the header from the
    call of the data row. *)
Definition append_row (ws : WorksheetHandle) (ok : Env -> bool)
           (values : list pystr) : M unit :=
  call (AppendRow values) ok ;;
  sh <- gets sheet ;;
  match sh with
  | Some content => set_sheet (Some (content ++ [values]))
  | None => raise WorksheetNotFound
  end.

End gspread.

(** [Credentials.from_service_account_file], or [json.loads] and
    [Credentials.from_service_account_info]. *)
Definition load_credentials : M unit :=
  ok <- ask creds_ok ;;
  if ok : bool then ret tt else raise SheetsError.

Definition _build_creds : M unit :=
  s <- ask secret_isfile ;;
  if s : bool then
    log INFO "Using service account from Secret File: %s" ;; load_credentials
  else
    l <- ask local_isfile ;;
    if l : bool then
      log INFO "Using service account from local file: %s" ;; load_credentials
    else
      e <- ask env_json ;;
      if e : bool then
        log INFO "Using service account from ENV SERVICE_ACCOUNT_JSON" ;;
        load_credentials
      else raise RuntimeError.

Definition _get_spreadsheet : M (option Spreadsheet) :=
  cached <- gets gs_spread ;;
  if cached : bool then ret (Some TheSpreadsheet) else
  try_except
    (_build_creds ;;
     gspread.authorize ;;
     set_gs_client true ;;
     ss <- gspread.open_by_key SHEET_ID ;;
     set_gs_spread true ;;
     log INFO "Connected to Google Sheet %s" ;;
     ret (Some ss))
    (fun e =>
       log ERROR "Ne morem se povezati na Google Sheet: %s" ;;
       ret None).

Definition _ensure_ws (title : pystr) (headers : list pystr)
  : M (option WorksheetHandle) :=
  ss <- _get_spreadsheet ;;
  match ss with
  | None => ret None
  | Some ss =>
    (* inl: the first try block fell through; inr: the handler returned *)
    r <- try_except
           (ws <- gspread.worksheet ss title ;; ret (inl ws))
           (fun e =>
              match e with
              | WorksheetNotFound =>
                ws <- gspread.add_worksheet ss title 1000
                        (Z.max 10 (Z.of_nat (List.length headers))) ;;
                gspread.append_row ws header_append_ok headers ;;
                ret (inr (Some ws))
              | _ => raise e
              end) ;;
    match r with
    | inr v => ret v
    | inl ws =>
      try_except
        (vals <- gspread.get_all_values ws ;;
         match vals with
         | [] => gspread.append_row ws header_append_ok headers
         | _ :: _ => ret tt
         end)
        (fun _ => ret tt) ;;
      ret (Some ws)
    end
  end.

(** ** Routes *)

Inductive Response :=
| Redirect (endpoint : string)                     (* redirect(url_for(...)) *)
| SendFile (data : list N) (mimetype : string) (as_attachment : bool)
           (download_name : string).

Definition MSG_REQUIRED : pystr :=
  u "Izpolnite vsa obvezna polja (ime, priimek, e-pošta, razred, oddelek).".

(** f"Vnesite učitelja pri predmetu {label}." *)
Definition msg_teacher (label : pystr) : pystr :=
  u "Vnesite učitelja pri predmetu " ++ label ++ u ".".

Definition MSG_THANKS : pystr := u "Hvala! Prijava je shranjena.".

(** f"{label} ({teacher})" *)
Definition pair_str (label teacher : pystr) : pystr :=
  label ++ u " (" ++ teacher ++ u ")".

(** The loop of [oddaj] over the catalog, [pari] being the list built so
    far: [inl] is the early return of the loop body, [inr] the list when the
    loop is over. *)
Fixpoint oddaj_loop (f : Form) (catalog : list (pystr * pystr))
         (pari : list pystr) : M (Response + list pystr) :=
  match catalog with
  | [] => ret (inr pari)
  | (code, label) :: rest =>
    if is_on f (u "chk_" ++ code) then
      let teacher := Py.strip (form_get_d f (u "teacher_" ++ code) []) in
      if negb (Py.truthy teacher) then
        flash (msg_teacher label) (u "error") ;;
        ret (inl (Redirect "index"))
      else oddaj_loop f rest (pari ++ [pair_str label teacher])
    else oddaj_loop f rest pari
  end.

Definition oddaj (f : Form) : M Response :=
  let ime := Py.strip (form_get_d f (u "ime") []) in
  let priimek := Py.strip (form_get_d f (u "priimek") []) in
  let email := Py.strip (form_get_d f (u "email") []) in
  let razred := Py.strip (form_get_d f (u "razred") []) in
  let oddelek := Py.strip (form_get_d f (u "oddelek") []) in
  if negb (Py.all [ime; priimek; email; razred; oddelek]) then
    flash MSG_REQUIRED (u "error") ;;
    ret (Redirect "index")
  else
    r <- oddaj_loop f PREDMETI [] ;;
    match r with
    | inl resp => ret resp
    | inr pari =>
      let predmeti_str :=
        if Py.truthy_list pari then Py.join (u "; ") pari else u "—" in
      (* SQLite *)
      add_vnos ime priimek email razred oddelek predmeti_str ;;
      (* Google Sheets (best-effort) *)
      try_except
        (ws <- _ensure_ws WS_TITLE HEADERS ;;
         match ws with
         | Some ws =>
           now <- ask now_sheet ;;
           gspread.append_row ws row_append_ok
             [now; ime; priimek; email; razred; oddelek; predmeti_str]
         | None => log WARNING "Sheets zapis preskočen (ni povezave)."
         end)
        (fun e => log ERROR "Sheets zapis ni uspel: %s") ;;
      flash MSG_THANKS (u "ok") ;;
      ret (Redirect "index")
    end.

(** The session cookie: the value stored under the key "admin_ok". *)
Definition Session := option Py.value.

(** [session.get("admin_ok") is True] *)
Definition admin_ok (s : Session) : bool :=
  match s with
  | Some (Py.Bool true) => true
  | _ => false
  end.

(** ** The csv module, as [csv.writer(buf, delimiter=';')] uses it *)

Module csv.

Definition delimiter : N := 59%N.         (* ; *)
Definition quotechar : N := 34%N.
Definition lineterminator : pystr := [13; 10]%N.

(** A field is quoted (QUOTE_MINIMAL) when it holds the delimiter, the
    quote character or a character of the line terminator. *)
Definition special (c : N) : bool :=
  ((c =? delimiter) || (c =? quotechar) || existsb (N.eqb c) lineterminator)%N.

Definition needs_quotes (field : pystr) : bool := existsb special field.

Definition escape (field : pystr) : pystr :=
  flat_map (fun c => if (c =? quotechar)%N then [quotechar; quotechar] else [c])
           field.

Definition quote_field (field : pystr) : pystr :=
  if needs_quotes field then [quotechar] ++ escape field ++ [quotechar]
  else field.

(** The text of a field: [None] is empty, a string is itself, anything
    else goes through [str]. *)
Definition field_str (v : Py.value) : pystr :=
  match v with
  | Py.None_ => []
  | Py.Str s => s
  | Py.Int z => Py.str_of_int z
  | Py.Bool true => u "True"
  | Py.Bool false => u "False"
  end.

(** The text [w.writerow(row)] writes; a record of one empty field is
    written as a pair of quotes. *)
Definition writerow (row : list Py.value) : pystr :=
  let record :=
    Py.join [delimiter] (map (fun v => quote_field (field_str v)) row) in
  match row, record with
  | _ :: _, [] => [quotechar; quotechar] ++ lineterminator
  | _, _ => record ++ lineterminator
  end.

End csv.

(** The tuple [cur.fetchall()] gives for a row. *)
Definition row_tuple (r : Row) : list Py.value :=
  [Py.Int (id r); Py.Str (datum r); Py.Str (ime r); Py.Str (priimek r);
   Py.Str (email r); Py.Str (razred r); Py.Str (oddelek r);
   Py.Str (predmeti r)].

Definition CSV_HEADER : list Py.value :=
  map Py.Str [u "ID"; u "Datum"; u "Ime"; u "Priimek"; u "E-pošta"; u "Razred";
              u "Oddelek"; u "Predmeti (učitelj)"].

Definition export_csv (s : Session) : M Response :=
  if negb (admin_ok s) then ret (Redirect "admin_login") else
  rows <- all_vnosi ;;
  let buf := csv.writerow CSV_HEADER in
  let buf := fold_left (fun b r => b ++ csv.writerow (row_tuple r)) rows buf in
  match Utf8.encode_sig buf with
  | Some data => ret (SendFile data "text/csv" true "instruktorji.csv")
  | None => raise UnicodeEncodeError
  end.

(** ** The other routes *)

(** What a route answers with: a response, or a page rendered from one of
    the three templates with what the template is given. *)
Inductive View :=
| Respond (r : Response)
| RenderForm (predmeti : list (pystr * pystr))     (* FORM_HTML *)
| RenderLogin                                      (* LOGIN_HTML *)
| RenderAdmin (rows : list Row).                   (* ADMIN_HTML *)

Definition index : M View := ret (RenderForm PREDMETI).

(** The hook that runs before the first request. *)
Definition _ensure_db : M Py.value := init_db.

Definition admin_login (s : Session) : M View :=
  if admin_ok s then ret (Respond (Redirect "admin_panel"))
  else ret RenderLogin.

Definition MSG_WRONG_PASSWORD : pystr := u "Napačno geslo.".

(** [request.form.get("password") == ADMIN_PASS] *)
Definition password_ok (f : Form) : bool :=
  match form_get f (u "password") with
  | Some v => Py.eqb v ADMIN_PASS
  | None => false
  end.

(** The routes that write the session answer with the session they leave. *)
Definition admin_do_login (f : Form) (s : Session) : M (View * Session) :=
  if password_ok f then
    ret (Respond (Redirect "admin_panel"), Some (Py.Bool true))
  else
    flash MSG_WRONG_PASSWORD (u "error") ;;
    ret (Respond (Redirect "admin_login"), s).

Definition admin_panel (s : Session) : M View :=
  if negb (admin_ok s) then ret (Respond (Redirect "admin_login")) else
  rows <- all_vnosi ;;
  ret (RenderAdmin rows).

Definition admin_delete (row_id : Z) (s : Session) : M View :=
  if negb (admin_ok s) then ret (Respond (Redirect "admin_login")) else
  delete_vnos row_id ;;
  ret (Respond (Redirect "admin_panel")).

(** [session.clear()] *)
Definition admin_logout (s : Session) : M (View * Session) :=
  ret (Respond (Redirect "admin_login"), None).

(** ** Vocabulary of the specification *)

(** The five required fields, as [oddaj] reads them. *)
Definition REQUIRED : list string :=
  ["ime"; "priimek"; "email"; "razred"; "oddelek"]%string.

Definition field (f : Form) (name : string) : pystr :=
  Py.strip (form_get_d f (u name) []).

Definition required_ok (f : Form) : bool :=
  forallb (fun name => Py.truthy (field f name)) REQUIRED.

Definition chk_key (p : pystr * pystr) : pystr := u "chk_" ++ fst p.
Definition teacher_key (p : pystr * pystr) : pystr := u "teacher_" ++ fst p.

(** The subject's checkbox is set. *)
Definition checked (f : Form) (p : pystr * pystr) : bool := is_on f (chk_key p).

(** The subject's teacher name, trimmed. *)
Definition teacher_of (f : Form) (p : pystr * pystr) : pystr :=
  Py.strip (form_get_d f (teacher_key p) []).

(** A checked subject without a teacher name. *)
Definition offending (f : Form) (p : pystr * pystr) : bool :=
  checked f p && negb (Py.truthy (teacher_of f p)).

(** The "Label (Teacher)" strings of the checked subjects of a catalog. *)
Definition segments (f : Form) (catalog : list (pystr * pystr)) : list pystr :=
  map (fun p => snd p ++ u " (" ++ teacher_of f p ++ u ")")
      (filter (checked f) catalog).

Definition summary (f : Form) : pystr :=
  match segments f PREDMETI with
  | [] => u "—"
  | segs => Py.join (u "; ") segs
  end.

(** [needle in hay] *)
Fixpoint prefixb (a b : pystr) : bool :=
  match a, b with
  | [], _ => true
  | x :: a', y :: b' => (x =? y)%N && prefixb a' b'
  | _ :: _, [] => false
  end.

Fixpoint contains (needle hay : pystr) : bool :=
  prefixb needle hay
  || match hay with [] => false | _ :: t => contains needle t end.

(** The try block of [oddaj] around the spreadsheet. *)
Definition mirror_block (ime priimek email razred oddelek predmeti_str : pystr)
  : M unit :=
  try_except
    (ws <- _ensure_ws WS_TITLE HEADERS ;;
     match ws with
     | Some ws =>
       now <- ask now_sheet ;;
       gspread.append_row ws row_append_ok
         [now; ime; priimek; email; razred; oddelek; predmeti_str]
     | None => log WARNING "Sheets zapis preskočen (ni povezave)."
     end)
    (fun e => log ERROR "Sheets zapis ni uspel: %s").

(** No call to SQLite fails. *)
Definition store_ok (env : Env) : bool :=
  connect_ok env && execute_ok env && commit_ok env && close_ok env.

Definition is_db_event (e : Event) : bool :=
  match e with
  | EvConnect _ | EvExecute _ _ | EvCommit _ | EvClose _ => true
  | _ => false
  end.

(** The event is not a call to SQLite, or it is one on connection [h]. *)
Definition on_handle (h : nat) (e : Event) : bool :=
  match e with
  | EvConnect n | EvExecute n _ | EvCommit n | EvClose n => Nat.eqb n h
  | _ => true
  end.

Definition is_ok {A} (r : Result A) : bool :=
  match r with Ok _ => true | Raise _ => false end.

(** An operation of the store that works on a connection of its own: it
    opens a fresh connection first, touches no other, and when it returns
    normally it has closed it, so that the open connections are those of
    before. *)
Definition scoped_connection {A} (c : M A) : Prop :=
  forall env w,
    exists evs,
      trace (snd (c env w)) = trace w ++ EvConnect (next_conn w) :: evs
      /\ forallb (on_handle (next_conn w)) evs = true
      /\ (is_ok (fst (c env w)) = true ->
          open_conns (snd (c env w)) = open_conns w
          /\ In (EvClose (next_conn w)) evs).

(** Every code point of the texts of a row is a Unicode scalar value. *)
Definition row_text_ok (r : Row) : bool :=
  forallb (forallb Utf8.scalar)
          [datum r; ime r; priimek r; email r; razred r; oddelek r; predmeti r].

(** The line of the export for a row: its eight fields in the order of the
    header, quoted where needed, joined by the delimiter. *)
Definition csv_line (r : Row) : pystr :=
  Py.join [csv.delimiter]
    (map csv.quote_field
         [Py.str_of_int (id r); datum r; ime r; priimek r; email r; razred r;
          oddelek r; predmeti r])
  ++ csv.lineterminator.

Definition CSV_HEADER_LINE : pystr :=
  u "ID;Datum;Ime;Priimek;E-pošta;Razred;Oddelek;Predmeti (učitelj)"
  ++ [13; 10]%N.

(** A call to the spreadsheet service, or a log entry. *)
Definition is_mirror_event (e : Event) : bool :=
  match e with
  | EvSheets _ | EvLog _ _ => true
  | _ => false
  end.

(** What the attempt on the mirror may change: the spreadsheet globals, the
    worksheet and the trace, the latter by calls to the service and by log
    entries only. *)
Definition mirror_frame (w w' : World) (evs : list Event) : Prop :=
  table w' = table w /\ open_conns w' = open_conns w
  /\ next_conn w' = next_conn w
  /\ trace w' = trace w ++ evs
  /\ forallb is_mirror_event evs = true.

(** How the attempt on the mirror ends: the row is the last of the
    worksheet; or there was no connection, which is logged as a warning; or a
    call failed, which is logged as an error. *)
Definition mirror_outcome (row : list pystr) (w w' : World) (evs : list Event)
  : Prop :=
  (exists content,
      sheet w' = Some content /\ last content [] = row
      /\ last evs (EvCommit 0) = EvSheets (AppendRow row))
  \/ (sheet w' = sheet w
      /\ last evs (EvCommit 0)
         = EvLog WARNING "Sheets zapis preskočen (ni povezave).")
  \/ last evs (EvCommit 0) = EvLog ERROR "Sheets zapis ni uspel: %s".

(** The world after a store operation that went through on connection
    [next_conn w]. *)
Definition after_store (t : option Table) (evs : list Event) (w : World)
  : World :=
  mkWorld t (open_conns w) (S (next_conn w)) (gs_client w) (gs_spread w)
          (sheet w) (trace w ++ evs).

(** In a listing by descending id, [a] may come before [b]. *)
Definition id_desc (a b : Row) : Prop := id b <= id a.

(** A relation between the world before and the world after that a
    computation keeps, whatever the outside does. *)
Definition preserves (R : World -> World -> Prop) {A} (c : M A) : Prop :=
  forall env w, R w (snd (c env w)).

Definition framed (w w' : World) : Prop := exists evs, mirror_frame w w' evs.

Definition same_sheet (w w' : World) : Prop := sheet w' = sheet w.

(** Texts that can be bound as parameters of a statement: every code point
    is a Unicode scalar value (a lone surrogate cannot be encoded). *)
Definition bindable (texts : list pystr) : bool :=
  forallb (forallb Utf8.scalar) texts.

(** A log entry that tells of a problem. *)
Definition is_alarm (e : Event) : bool :=
  match e with
  | EvLog WARNING _ | EvLog ERROR _ => true
  | _ => false
  end.

Definition is_log (e : Event) : bool :=
  match e with EvLog _ _ => true | _ => false end.

(** A service account is found in one of the three places. *)
Definition creds_found (env : Env) : bool :=
  secret_isfile env || local_isfile env || env_json env.

(** The spreadsheet is at hand: it is cached, or it can be opened now. *)
Definition connects (env : Env) (w : World) : bool :=
  gs_spread w
  || (creds_found env && creds_ok env && authorize_ok env && open_ok env).

(** ** Sample data *)

(** A world whose table exists and is empty, and an outside that does not
    fail: the service account is in the secret file of the platform. *)
Definition w_empty : World :=
  mkWorld (Some (mkTable [] 0)) [] 0%nat false false None [].

Definition env_ok : Env :=
  mkEnv (u "2025-03-01 10:00") (u "2025-03-01 10:00")
        true true true true  true false false  true true true
        true true true true true.

(** The same outside, but the statement sent to SQLite fails. *)
Definition env_execute_fails : Env :=
  mkEnv (u "2025-03-01 10:00") (u "2025-03-01 10:00")
        true false true true  true false false  true true true
        true true true true true.

(** The same outside, but the spreadsheet service refuses the data row. *)
Definition env_row_fails : Env :=
  mkEnv (u "2025-03-01 10:00") (u "2025-03-01 10:00")
        true true true true  true false false  true true true
        true true true true false.

(** The same outside, but the spreadsheet service refuses the header row. *)
Definition env_header_fails : Env :=
  mkEnv (u "2025-03-01 10:00") (u "2025-03-01 10:00")
        true true true true  true false false  true true true
        true true true false true.

Definition form_ana : Form :=
  [ (u "ime", u "Ana"); (u "priimek", u "Novak"); (u "email", u "a@x.si");
    (u "razred", u "2. letnik"); (u "oddelek", u "b");
    (u "chk_mat", u "on"); (u "teacher_mat", u "Kovač") ].

(** The form of Ana with the fields sent in another order. *)
Definition form_ana_shuffled : Form :=
  [ (u "teacher_mat", u "Kovač"); (u "chk_mat", u "on");
    (u "oddelek", u "b"); (u "razred", u "2. letnik");
    (u "email", u "a@x.si"); (u "priimek", u "Novak"); (u "ime", u "Ana") ].

(** Mathematics checked without a teacher, physics with one. *)
Definition form_no_teacher : Form :=
  [ (u "ime", u "Ana"); (u "priimek", u "Novak"); (u "email", u "a@x.si");
    (u "razred", u "2. letnik"); (u "oddelek", u "b");
    (u "chk_mat", u "on"); (u "teacher_mat", u "  ");
    (u "chk_fiz", u "on"); (u "teacher_fiz", u "Horvat") ].

(** Mathematics checked without a teacher, and the e-mail left blank. *)
Definition form_no_email : Form :=
  [ (u "ime", u "Ana"); (u "priimek", u "Novak"); (u "email", u " ");
    (u "razred", u "2. letnik"); (u "oddelek", u "b");
    (u "chk_mat", u "on"); (u "teacher_mat", u "") ].

(** A request written by hand, with a grade and a section the form does not
    offer. *)
Definition form_other_grade : Form :=
  [ (u "ime", u "Ana"); (u "priimek", u "Novak"); (u "email", u "a@x.si");
    (u "razred", u "5. letnik"); (u "oddelek", u "zz") ].

(** The form of Ana, with teacher names left in for physics and chemistry,
    which are not checked. *)
Definition form_ana_extra : Form :=
  form_ana ++ [ (u "teacher_fiz", u "Horvat"); (u "teacher_kem", u "") ].

(** The form of Ana, with the checkbox of chemistry sent with another value
    than "on", and no teacher for it. *)
Definition form_ana_upper : Form :=
  form_ana ++ [ (u "chk_kem", u "ON"); (u "teacher_kem", u "") ].

Definition row_ana (n : Z) : Row :=
  mkRow n (u "2025-03-01 10:00") (u "Ana") (u "Novak") (u "a@x.si")
        (u "2. letnik") (u "b") (u "Matematika (Kovač)").

Definition w_two_rows : World :=
  mkWorld (Some (mkTable [row_ana 1; row_ana 2] 2)) [] 0%nat false false None [].

(** The table is empty, the spreadsheet is cached, and its worksheet exists
    without any row. *)
Definition w_blank_sheet : World :=
  mkWorld (Some (mkTable [] 0)) [] 0%nat true true (Some []) [].

Definition session_admin : Session := Some (Py.Bool true).

(** ** Vocabulary of the further properties *)

(** The ids of the table are all different, as a primary key asks. *)
Definition key_ok (w : World) : Prop :=
  match table w with
  | Some t => NoDup (map id (rows t))
  | None => True
  end.

(** The sort behind [Sql.select_desc], on the records alone. *)
Definition sort_desc (rs : list Row) : list Row :=
  fold_right Sql.insert_desc [] rs.

(** What a client does to its session: it sends the login form, or it logs
    out. *)
Inductive SessionStep :=
| Login (f : Form)
| Logout.

Definition is_logout (a : SessionStep) : bool :=
  match a with Logout => true | Login _ => false end.

(** The session a route leaves, the one of before when the route raises. *)
Definition session_of (r : Result (View * Session)) (s : Session) : Session :=
  match r with
  | Ok (_, s') => s'
  | Raise _ => s
  end.

(** The session, and the world, after the steps. *)
Fixpoint session_after (steps : list SessionStep) (s : Session) (env : Env)
         (w : World) : Session * World :=
  match steps with
  | [] => (s, w)
  | Login f :: rest =>
    let (r, w') := admin_do_login f s env w in
    session_after rest (session_of r s) env w'
  | Logout :: rest =>
    let (r, w') := admin_logout s env w in
    session_after rest (session_of r s) env w'
  end.

(** No call on the worksheet fails before the data row. *)
Definition sheet_calls_ok (env : Env) : bool :=
  worksheet_ok env && add_worksheet_ok env && get_values_ok env
  && header_append_ok env.

(** The worksheet once its header is seen to: created with the header, or
    given the header when it was empty, or left as it was. *)
Definition with_header (headers : list pystr)
           (sh : option (list (list pystr))) : list (list pystr) :=
  match sh with
  | None | Some [] => [headers]
  | Some content => content
  end.

(** The keys [oddaj] looks up: the required fields, and for each subject of
    the catalog its checkbox and its teacher name. *)
Definition known_keys : list pystr :=
  map u REQUIRED ++ map chk_key PREDMETI ++ map teacher_key PREDMETI.

(** No white space at either end. *)
Definition trimmed (s : pystr) : Prop :=
  match s with
  | [] => True
  | c :: _ => Py.is_space c = false /\ Py.is_space (last s c) = false
  end.

(** Every value of the form is made of Unicode scalar values. *)
Definition form_text_ok (f : Form) : Prop :=
  forall k v, form_get f k = Some v -> forallb Utf8.scalar v = true.

Definition form_extra_keys : Form :=
  form_ana ++ [ (u "chk_lat", u "on"); (u "teacher_lat", u "");
                (u "password", u "x"); (u "id", u "7") ].

(** * Properties *)

(** ** Strings *)

Lemma eqb_eq (a b : pystr) : Py.eqb a b = true <-> a = b.
Proof.
  revert b; induction a as [|x a IH]; intros [|y b]; simpl; split;
    try congruence; try reflexivity.
  - intros H. apply andb_true_iff in H as [Hx Hab].
    apply N.eqb_eq in Hx. apply IH in Hab. congruence.
  - intros H. injection H as -> ->. rewrite N.eqb_refl. simpl. now apply IH.
Qed.

Lemma eqb_refl (a : pystr) : Py.eqb a a = true.
Proof. now apply eqb_eq. Qed.

Lemma lstrip_nil (s : pystr) : Py.lstrip s = [] <-> forallb Py.is_space s = true.
Proof.
  induction s as [|c t IH]; simpl.
  - tauto.
  - destruct (Py.is_space c); simpl; [exact IH | split; discriminate].
Qed.

Lemma lstrip_head (s : pystr) c t :
  Py.lstrip s = c :: t -> Py.is_space c = false.
Proof.
  induction s as [|x s IH]; simpl; [discriminate|].
  destruct (Py.is_space x) eqn:E; [exact IH|].
  intros H; injection H as -> _. exact E.
Qed.

(** A value is blank after trimming exactly when it holds white space only. *)
Lemma strip_nil (s : pystr) : Py.strip s = [] <-> forallb Py.is_space s = true.
Proof.
  unfold Py.strip, Py.rstrip. rewrite <- lstrip_nil.
  split.
  - intros H. destruct (Py.lstrip s) as [|c t] eqn:E; [reflexivity|].
    exfalso. apply (f_equal (@rev N)) in H. rewrite rev_involutive in H.
    simpl in H. apply lstrip_nil in H.
    rewrite forallb_app in H. apply andb_true_iff in H as [_ H].
    simpl in H. rewrite (lstrip_head _ _ _ E) in H. discriminate.
  - intros ->. reflexivity.
Qed.

Lemma truthy_false (s : pystr) : Py.truthy s = false <-> s = [].
Proof. destruct s; simpl; split; congruence. Qed.

(** The literals are read as Python reads them. *)
Example u_dash : u "—" = [0x2014]%N.
Proof. reflexivity. Qed.

Example u_label :
  u "Angleščina" = [65; 110; 103; 108; 101; 0x161; 0x10D; 105; 110; 97]%N.
Proof. reflexivity. Qed.

Example encode_label :
  Utf8.encode (u "Angleščina") = Some (bytes_of_string "Angleščina").
Proof. reflexivity. Qed.

Example encode_surrogate : Utf8.encode [0xD800]%N = None.
Proof. reflexivity. Qed.

Example strip_spaces : Py.strip (u "  Kovač	 ") = u "Kovač".
Proof. reflexivity. Qed.

Example str_of_int_120 : Py.str_of_int 120 = u "120".
Proof. reflexivity. Qed.

Example str_of_int_0 : Py.str_of_int 0 = u "0".
Proof. reflexivity. Qed.

(** A field with the delimiter or a quote is quoted, its quotes doubled
    (34 is the quote character). *)
Example writerow_quotes :
  csv.writerow [Py.Int 3; Py.Str (u "a;b");
                Py.Str (u "say " ++ [34]%N ++ u "hi" ++ [34]%N); Py.Str []]
  = u "3;" ++ [34]%N ++ u "a;b" ++ [34]%N ++ u ";"
    ++ [34]%N ++ u "say " ++ [34; 34]%N ++ u "hi" ++ [34; 34; 34]%N ++ u ";"
    ++ [13; 10]%N.
Proof. reflexivity. Qed.

(** ** The form *)

Lemma form_get_perm (f f' : Form) :
  Permutation f f' -> NoDup (map fst f) ->
  forall k, form_get f' k = form_get f k.
Proof.
  induction 1 as [|[k0 v0] l l' HP IH|[k1 v1] [k2 v2] l|l l' l'' HP1 IH1 HP2 IH2];
    intros ND k; simpl.
  - reflexivity.
  - inversion ND; subst. now rewrite IH.
  - inversion ND as [|? ? Hnin ND']; subst.
    destruct (Py.eqb k1 k) eqn:E1, (Py.eqb k2 k) eqn:E2; try reflexivity.
    apply eqb_eq in E1, E2. subst. exfalso. apply Hnin. now left.
  - rewrite IH2, IH1; auto.
    eapply Permutation_NoDup; [|exact ND]. now apply Permutation_map.
Qed.

(** ** The validation of [oddaj] *)

(** The loop over the catalog stops at the first offending subject, with a
    message for it; otherwise it extends [pari] by the segments of the checked
    subjects, in the order of the catalog. *)
Lemma oddaj_loop_run (f : Form) (catalog : list (pystr * pystr)) :
  forall pari env w,
    oddaj_loop f catalog pari env w =
    match find (offending f) catalog with
    | Some p =>
      (Ok (inl (Redirect "index")),
       record_event (EvFlash (msg_teacher (snd p)) (u "error")) w)
    | None => (Ok (inr (pari ++ segments f catalog)), w)
    end.
Proof.
  induction catalog as [|[code label] rest IH]; intros pari env w.
  - cbn. now rewrite app_nil_r.
  - cbn [oddaj_loop find]. unfold offending at 1, checked, teacher_of, chk_key, teacher_key.
    cbn [fst snd].
    destruct (is_on f (u "chk_" ++ code)) eqn:Hon; cbn [andb].
    + destruct (Py.truthy _) eqn:Ht; cbn [negb].
      * rewrite IH. destruct (find (offending f) rest); [reflexivity|].
        unfold segments. cbn [filter]. unfold checked at 2, chk_key. cbn [fst].
        rewrite Hon. cbn [map]. unfold pair_str, teacher_of, teacher_key. cbn [fst snd].
        now rewrite <- app_assoc.
      * reflexivity.
    + rewrite IH. destruct (find (offending f) rest); [reflexivity|].
      unfold segments. cbn [filter]. unfold checked at 2, chk_key. cbn [fst].
      now rewrite Hon.
Qed.

Lemma required_ok_all (f : Form) :
  Py.all [field f "ime"; field f "priimek"; field f "email"; field f "razred";
          field f "oddelek"] = required_ok f.
Proof. reflexivity. Qed.

(** [oddaj] when a required field is blank. *)
Lemma oddaj_required (f : Form) env w :
  required_ok f = false ->
  oddaj f env w =
  (Ok (Redirect "index"), record_event (EvFlash MSG_REQUIRED (u "error")) w).
Proof.
  intros H. unfold oddaj. fold (field f "ime") (field f "priimek") (field f "email") (field f "razred") (field f "oddelek").
  rewrite required_ok_all, H. reflexivity.
Qed.

(** [oddaj] when a checked subject has no teacher. *)
Lemma oddaj_offending (f : Form) p env w :
  required_ok f = true ->
  find (offending f) PREDMETI = Some p ->
  oddaj f env w =
  (Ok (Redirect "index"),
   record_event (EvFlash (msg_teacher (snd p)) (u "error")) w).
Proof.
  intros H Hf. unfold oddaj. fold (field f "ime") (field f "priimek") (field f "email") (field f "razred") (field f "oddelek").
  rewrite required_ok_all, H. cbn [negb]. unfold bind at 1.
  rewrite oddaj_loop_run, Hf. reflexivity.
Qed.

Lemma summary_eq (f : Form) :
  (if Py.truthy_list (segments f PREDMETI)
   then Py.join (u "; ") (segments f PREDMETI) else u "—") = summary f.
Proof. unfold summary. now destruct (segments f PREDMETI). Qed.

(** [oddaj] on a submission that passes validation: the local write, the
    attempt on the mirror, the acknowledgment. *)
Lemma oddaj_valid (f : Form) env w :
  required_ok f = true ->
  find (offending f) PREDMETI = None ->
  oddaj f env w =
  (add_vnos (field f "ime") (field f "priimek") (field f "email")
            (field f "razred") (field f "oddelek") (summary f) ;;
   mirror_block (field f "ime") (field f "priimek") (field f "email")
                (field f "razred") (field f "oddelek") (summary f) ;;
   flash MSG_THANKS (u "ok") ;;
   ret (Redirect "index")) env w.
Proof.
  intros H Hf. unfold oddaj. fold (field f "ime") (field f "priimek") (field f "email") (field f "razred") (field f "oddelek").
  rewrite required_ok_all, H. cbn [negb]. unfold bind at 1.
  rewrite oddaj_loop_run, Hf. cbn [app]. rewrite summary_eq. reflexivity.
Qed.

(** ** The local store *)

Ltac run_store :=
  unfold init_db, add_vnos, all_vnosi, delete_vnos,
         sqlite3.connect, sqlite3.execute, sqlite3.commit, sqlite3.close,
         log, flash, emit, set_table, set_conns, modify, gets, ask, raise, bind, ret;
  cbn.

Lemma store_ok_flags env :
  store_ok env = true ->
  connect_ok env = true /\ execute_ok env = true /\ commit_ok env = true
  /\ close_ok env = true.
Proof.
  unfold store_ok. intros H.
  repeat (apply andb_true_iff in H as [H ?]). auto.
Qed.

Ltac store_flags H :=
  apply store_ok_flags in H as (?Hc & ?He & ?Hm & ?Hl).

Lemma add_vnos_run i p e r o s env w t t' :
  store_ok env = true ->
  table w = Some t ->
  Sql.insert (now_db env) i p e r o s t = Some t' ->
  add_vnos i p e r o s env w =
  (Ok Py.None_,
   after_store (Some t')
     [EvConnect (next_conn w);
      EvExecute (next_conn w) (Insert (now_db env) i p e r o s);
      EvCommit (next_conn w); EvClose (next_conn w)] w).
Proof.
  intros H Ht Hi. store_flags H. run_store.
  repeat (progress (rewrite ?Hc, ?He, ?Hm, ?Hl, ?Ht, ?Hi, ?Nat.eqb_refl; cbn)). unfold after_store, record_event. cbn.
  repeat rewrite <- app_assoc. reflexivity.
Qed.

Lemma delete_vnos_run row_id env w t :
  store_ok env = true ->
  table w = Some t ->
  Sql.fits_int64 row_id = true ->
  delete_vnos row_id env w =
  (Ok Py.None_,
   after_store (Some (Sql.delete row_id t))
     [EvConnect (next_conn w); EvExecute (next_conn w) (Delete row_id);
      EvCommit (next_conn w); EvClose (next_conn w)] w).
Proof.
  intros H Ht Hfit. store_flags H. run_store.
  repeat (progress (rewrite ?Hc, ?He, ?Hm, ?Hl, ?Ht, ?Hfit, ?Nat.eqb_refl; cbn)).
  unfold after_store, record_event. cbn.
  repeat rewrite <- app_assoc. reflexivity.
Qed.

Lemma all_vnosi_run env w t :
  connect_ok env = true -> execute_ok env = true -> close_ok env = true ->
  table w = Some t ->
  all_vnosi env w =
  (Ok (Sql.select_desc t),
   after_store (Some t)
     [EvConnect (next_conn w); EvExecute (next_conn w) SelectAll;
      EvClose (next_conn w)] w).
Proof.
  intros Hc He Hl Ht. run_store.
  repeat (progress (rewrite ?Hc, ?He, ?Hl, ?Ht, ?Nat.eqb_refl; cbn)).
  unfold after_store, record_event. cbn.
  repeat rewrite <- app_assoc. reflexivity.
Qed.

Lemma filter_id_absent row_id (rs : list Row) :
  ~ In row_id (map id rs) ->
  filter (fun r => negb (id r =? row_id)) rs = rs.
Proof.
  induction rs as [|r rs IH]; simpl; intros H; [reflexivity|].
  destruct (Z.eqb_spec (id r) row_id) as [E|E]; simpl.
  - exfalso. apply H. now left.
  - rewrite IH; auto.
Qed.

Lemma max_id_ge (rs : list Row) r : In r rs -> id r <= Sql.max_id rs.
Proof.
  induction rs as [|x rs IH]; simpl; [tauto|].
  intros [->|H]; [lia|]. specialize (IH H). lia.
Qed.

Lemma next_rowid_fresh (t : Table) r : In r (rows t) -> id r < Sql.next_rowid t.
Proof.
  intros H. apply max_id_ge in H. unfold Sql.next_rowid. lia.
Qed.

Lemma insert_some d i p e r o s t :
  Sql.next_rowid t <= Sql.MAX_ROWID ->
  Sql.insert d i p e r o s t =
  Some (mkTable (rows t ++ [mkRow (Sql.next_rowid t) d i p e r o s])
                (Sql.next_rowid t)).
Proof.
  intros H. unfold Sql.insert. cbv zeta.
  destruct (Z.leb_spec (Sql.next_rowid t) Sql.MAX_ROWID); [reflexivity|lia].
Qed.

Ltac split_store :=
  repeat match goal with
         | |- context [Nat.eqb ?n ?n] => rewrite Nat.eqb_refl; cbn
         | |- context [if negb ?b then _ else _] => destruct b eqn:?; cbn
         | |- context [if ?b then _ else _] => destruct b eqn:?; cbn
         | |- context [match table ?w with _ => _ end] => destruct (table w) eqn:?; cbn
         | |- context [match Sql.insert ?d ?i ?p ?e ?r ?o ?s ?t with _ => _ end] =>
           destruct (Sql.insert d i p e r o s t) eqn:?; cbn
         end.

Ltac close_scoped :=
  eexists; split;
  [ unfold record_event; cbn; repeat rewrite <- app_assoc; cbn; reflexivity
  | split;
    [ cbn; rewrite ?Nat.eqb_refl; reflexivity
    | first [ discriminate
            | intros _; split; [reflexivity | cbn; tauto] ] ] ].

Lemma init_db_scoped : scoped_connection init_db.
Proof.
  intros env w. run_store. split_store; close_scoped.
Qed.

Lemma add_vnos_scoped i p e r o s : scoped_connection (add_vnos i p e r o s).
Proof.
  intros env w. run_store. split_store; close_scoped.
Qed.

Lemma all_vnosi_scoped : scoped_connection all_vnosi.
Proof.
  intros env w. run_store. split_store; close_scoped.
Qed.

Lemma delete_vnos_scoped row_id : scoped_connection (delete_vnos row_id).
Proof.
  intros env w. run_store. split_store; close_scoped.
Qed.

(** ** The mirror *)

Section Preserves.

(** A reflexive and transitive relation is kept by the combinators of [M]
    as soon as the steps keep it. *)
Variable R : World -> World -> Prop.
Hypothesis R_refl : forall w, R w w.
Hypothesis R_trans : forall w1 w2 w3, R w1 w2 -> R w2 w3 -> R w1 w3.

Lemma preserves_ret {A} (a : A) : preserves R (ret a).
Proof. intros env w. apply R_refl. Qed.

Lemma preserves_raise {A} e : preserves R (@raise A e).
Proof. intros env w. apply R_refl. Qed.

Lemma preserves_ask {A} (proj : Env -> A) : preserves R (ask proj).
Proof. intros env w. apply R_refl. Qed.

Lemma preserves_gets {A} (proj : World -> A) : preserves R (gets proj).
Proof. intros env w. apply R_refl. Qed.

Lemma preserves_modify g : (forall w, R w (g w)) -> preserves R (modify g).
Proof. intros H env w. apply H. Qed.

Lemma preserves_bind {A B} (c : M A) (k : A -> M B) :
  preserves R c -> (forall a, preserves R (k a)) -> preserves R (bind c k).
Proof.
  intros Hc Hk env w. unfold bind. specialize (Hc env w).
  destruct (c env w) as [[a|e] w1]; cbn in *.
  - eapply R_trans; [exact Hc | apply Hk].
  - exact Hc.
Qed.

Lemma preserves_try {A} (body : M A) handler :
  preserves R body -> (forall e, preserves R (handler e)) ->
  preserves R (try_except body handler).
Proof.
  intros Hb Hh env w. unfold try_except. specialize (Hb env w).
  destruct (body env w) as [[a|e] w1]; cbn in *.
  - exact Hb.
  - eapply R_trans; [exact Hb | apply Hh].
Qed.

Lemma preserves_if {A} (b : bool) (c1 c2 : M A) :
  preserves R c1 -> preserves R c2 -> preserves R (if b then c1 else c2).
Proof. now destruct b. Qed.

End Preserves.

Lemma framed_refl w : framed w w.
Proof.
  exists []. unfold mirror_frame. rewrite app_nil_r. repeat split; reflexivity.
Qed.

Lemma mirror_frame_trans w1 w2 w3 e1 e2 :
  mirror_frame w1 w2 e1 -> mirror_frame w2 w3 e2 ->
  mirror_frame w1 w3 (e1 ++ e2).
Proof.
  intros (Ht1 & Ho1 & Hn1 & Hr1 & Hf1) (Ht2 & Ho2 & Hn2 & Hr2 & Hf2).
  unfold mirror_frame. rewrite Ht2, Ho2, Hn2, Hr2, Hr1, forallb_app, Hf1, Hf2.
  rewrite app_assoc. auto.
Qed.

Lemma framed_trans w1 w2 w3 : framed w1 w2 -> framed w2 w3 -> framed w1 w3.
Proof.
  intros [e1 H1] [e2 H2]. exists (e1 ++ e2). eapply mirror_frame_trans; eauto.
Qed.

Lemma same_sheet_refl w : same_sheet w w.
Proof. reflexivity. Qed.

Lemma same_sheet_trans w1 w2 w3 :
  same_sheet w1 w2 -> same_sheet w2 w3 -> same_sheet w1 w3.
Proof. unfold same_sheet. congruence. Qed.

Create HintDb mirror.

#[local] Hint Resolve framed_refl framed_trans same_sheet_refl same_sheet_trans : mirror.
#[local] Hint Resolve preserves_ret preserves_raise preserves_ask preserves_gets
  preserves_bind preserves_try preserves_if : mirror.

Lemma framed_emit e : is_mirror_event e = true -> preserves framed (emit e).
Proof.
  intros H. apply preserves_modify. intros w. exists [e].
  unfold mirror_frame, record_event; cbn. rewrite H. auto.
Qed.

Lemma framed_log l msg : preserves framed (log l msg).
Proof. now apply framed_emit. Qed.

Lemma same_sheet_log l msg : preserves same_sheet (log l msg).
Proof. now apply preserves_modify. Qed.

Lemma framed_set_gs_client b : preserves framed (set_gs_client b).
Proof.
  apply preserves_modify. intros w. exists []. unfold mirror_frame; cbn.
  rewrite app_nil_r. auto.
Qed.

Lemma framed_set_gs_spread b : preserves framed (set_gs_spread b).
Proof.
  apply preserves_modify. intros w. exists []. unfold mirror_frame; cbn.
  rewrite app_nil_r. auto.
Qed.

Lemma framed_set_sheet s : preserves framed (set_sheet s).
Proof.
  apply preserves_modify. intros w. exists []. unfold mirror_frame; cbn.
  rewrite app_nil_r. auto.
Qed.

Lemma same_sheet_set_gs_client b : preserves same_sheet (set_gs_client b).
Proof. now apply preserves_modify. Qed.

Lemma same_sheet_set_gs_spread b : preserves same_sheet (set_gs_spread b).
Proof. now apply preserves_modify. Qed.

Lemma framed_call c ok : preserves framed (gspread.call c ok).
Proof.
  unfold gspread.call.
  apply preserves_bind; [apply framed_trans | now apply framed_emit | intros _].
  apply preserves_bind; [apply framed_trans | auto with mirror | intros b].
  destruct b; auto with mirror.
Qed.

Lemma same_sheet_call c ok : preserves same_sheet (gspread.call c ok).
Proof.
  unfold gspread.call.
  apply preserves_bind;
    [apply same_sheet_trans | now apply preserves_modify | intros _].
  apply preserves_bind; [apply same_sheet_trans | auto with mirror | intros b].
  destruct b; auto with mirror.
Qed.

#[local] Hint Resolve framed_log same_sheet_log framed_set_gs_client
  framed_set_gs_spread framed_set_sheet same_sheet_set_gs_client
  same_sheet_set_gs_spread framed_call same_sheet_call : mirror.

Ltac preorder :=
  first [ exact framed_trans | exact same_sheet_trans
        | exact framed_refl | exact same_sheet_refl ].

Ltac preserve :=
  repeat first
         [ solve [auto with mirror]
         | preorder
         | apply preserves_ret
         | apply preserves_raise
         | apply preserves_bind; [preorder | | intros ?]
         | apply preserves_try; [preorder | | intros ?]
         | match goal with
           | |- preserves _ (if ?x then _ else _) => destruct x
           | |- preserves _ (match ?x with _ => _ end) => destruct x
           end ].

Lemma build_creds_framed : preserves framed _build_creds.
Proof. unfold _build_creds, load_credentials. preserve. Qed.

Lemma build_creds_same_sheet : preserves same_sheet _build_creds.
Proof. unfold _build_creds, load_credentials. preserve. Qed.

Lemma get_spreadsheet_framed : preserves framed _get_spreadsheet.
Proof.
  pose proof build_creds_framed.
  unfold _get_spreadsheet, gspread.authorize, gspread.open_by_key. preserve.
Qed.

Lemma get_spreadsheet_same_sheet : preserves same_sheet _get_spreadsheet.
Proof.
  pose proof build_creds_same_sheet.
  unfold _get_spreadsheet, gspread.authorize, gspread.open_by_key. preserve.
Qed.

Lemma ensure_ws_framed title headers : preserves framed (_ensure_ws title headers).
Proof.
  pose proof get_spreadsheet_framed.
  unfold _ensure_ws, gspread.worksheet, gspread.add_worksheet,
    gspread.get_all_values, gspread.append_row.
  preserve.
Qed.

Lemma mirror_block_framed i p e r o s :
  preserves framed (mirror_block i p e r o s).
Proof.
  pose proof (ensure_ws_framed WS_TITLE HEADERS).
  unfold mirror_block, gspread.append_row. preserve.
Qed.

Ltac run_sheets :=
  unfold gspread.worksheet, gspread.add_worksheet, gspread.get_all_values,
         gspread.append_row, gspread.call, try_except, set_sheet,
         log, emit, modify, gets, ask, raise, bind, ret;
  cbn -[app last HEADERS WS_TITLE].

Ltac split_sheets :=
  repeat match goal with
         | |- context [if ?b then _ else _] =>
           destruct b eqn:?; cbn -[app last HEADERS WS_TITLE]
         | |- context [match sheet ?w with _ => _ end] =>
           destruct (sheet w) as [[|? ?]|] eqn:?; cbn -[app last HEADERS WS_TITLE]
         end.

(** [_ensure_ws] answers None only when there is no connection, and then the
    worksheet is as it was. *)
Lemma ensure_ws_none title headers env w w1 :
  _ensure_ws title headers env w = (Ok None, w1) -> sheet w1 = sheet w.
Proof.
  unfold _ensure_ws. unfold bind at 1.
  pose proof (get_spreadsheet_same_sheet env w) as Hs.
  destruct (_get_spreadsheet env w) as [[[ss|]|e] w0]; cbn in Hs.
  - run_sheets. split_sheets; discriminate.
  - unfold ret. intros H. injection H as <-. exact Hs.
  - discriminate.
Qed.

Lemma mirror_block_run i p e r o s env w :
  exists w' evs,
    mirror_block i p e r o s env w = (Ok tt, w')
    /\ mirror_frame w w' evs
    /\ mirror_outcome [now_sheet env; i; p; e; r; o; s] w w' evs.
Proof.
  pose proof (ensure_ws_framed WS_TITLE HEADERS env w) as [evs1 Hf].
  pose proof (ensure_ws_none WS_TITLE HEADERS env w) as Hn.
  unfold mirror_block, try_except. unfold bind at 1.
  destruct (_ensure_ws WS_TITLE HEADERS env w) as [[[ws|]|x] w1]; cbn in Hf.
  3: { eexists; exists (evs1 ++ [EvLog ERROR "Sheets zapis ni uspel: %s"]).
       split; [reflexivity|]. split.
       - eapply mirror_frame_trans; [exact Hf|].
         unfold mirror_frame, record_event; cbn. auto.
       - right; right. apply last_last. }
  2: { eexists; exists (evs1 ++ [EvLog WARNING "Sheets zapis preskočen (ni povezave)."]).
       split; [reflexivity|]. split.
       - eapply mirror_frame_trans; [exact Hf|].
         unfold mirror_frame, record_event; cbn. auto.
       - right; left. split; [cbn; now apply Hn | apply last_last]. }
  run_sheets. destruct (row_append_ok env); cbn -[app last].
  - destruct (sheet w1) as [content|] eqn:Hs; cbn -[app last].
    + eexists; exists (evs1 ++ [EvSheets (AppendRow [now_sheet env; i; p; e; r; o; s])]).
      split; [reflexivity|]. split.
      * eapply mirror_frame_trans; [exact Hf|].
        unfold mirror_frame, record_event; cbn. auto.
      * left. eexists. split; [reflexivity|]. split; apply last_last.
    + eexists; exists (evs1 ++ [EvSheets (AppendRow [now_sheet env; i; p; e; r; o; s]);
                                EvLog ERROR "Sheets zapis ni uspel: %s"]).
      split; [reflexivity|]. split.
      * eapply mirror_frame_trans; [exact Hf|].
        unfold mirror_frame, record_event; cbn. rewrite <- app_assoc. auto.
      * right; right.
        change [EvSheets (AppendRow [now_sheet env; i; p; e; r; o; s]);
                EvLog ERROR "Sheets zapis ni uspel: %s"]
          with ([EvSheets (AppendRow [now_sheet env; i; p; e; r; o; s])]
                  ++ [EvLog ERROR "Sheets zapis ni uspel: %s"]).
        rewrite app_assoc. apply last_last.
  - eexists; exists (evs1 ++ [EvSheets (AppendRow [now_sheet env; i; p; e; r; o; s]);
                              EvLog ERROR "Sheets zapis ni uspel: %s"]).
    split; [reflexivity|]. split.
    * eapply mirror_frame_trans; [exact Hf|].
      unfold mirror_frame, record_event; cbn. rewrite <- app_assoc. auto.
    * right; right.
      change [EvSheets (AppendRow [now_sheet env; i; p; e; r; o; s]);
              EvLog ERROR "Sheets zapis ni uspel: %s"]
        with ([EvSheets (AppendRow [now_sheet env; i; p; e; r; o; s])]
                ++ [EvLog ERROR "Sheets zapis ni uspel: %s"]).
      rewrite app_assoc. apply last_last.
Qed.

(** With the spreadsheet at hand [_get_spreadsheet] answers with it, and
    logs no warning and no error. *)
Lemma get_spreadsheet_connected env w :
  connects env w = true ->
  exists w0 evs,
    _get_spreadsheet env w = (Ok (Some TheSpreadsheet), w0)
    /\ mirror_frame w w0 evs
    /\ sheet w0 = sheet w
    /\ existsb is_alarm evs = false.
Proof.
  unfold connects, creds_found. intros Hc.
  unfold _get_spreadsheet, _build_creds, load_credentials,
    gspread.authorize, gspread.open_by_key, gspread.call, try_except,
    set_gs_client, set_gs_spread, log, emit, modify, gets, ask, raise,
    bind, ret, mirror_frame.
  cbn.
  destruct (gs_spread w); cbn.
  - exists w, []. rewrite app_nil_r. repeat split; reflexivity.
  - cbn in Hc.
    destruct (secret_isfile env), (local_isfile env), (env_json env),
      (creds_ok env), (authorize_ok env), (open_ok env);
      try discriminate Hc; cbn;
      eexists; eexists; (split; [reflexivity|]); cbn;
      rewrite <- ?app_assoc; cbn [app];
      repeat split; reflexivity.
Qed.

(** On a worksheet that exists, [_ensure_ws] answers with it whatever the
    look at its rows and the writing of the header do, and logs no warning
    and no error. *)
Lemma ensure_ws_existing title headers env w content :
  connects env w = true ->
  sheet w = Some content ->
  worksheet_ok env = true ->
  exists w1 evs,
    _ensure_ws title headers env w = (Ok (Some TheWorksheet), w1)
    /\ mirror_frame w w1 evs
    /\ existsb is_alarm evs = false
    /\ sheet w1
       = Some (match content with
               | [] => if get_values_ok env && header_append_ok env
                       then [headers] else []
               | _ :: _ => content
               end).
Proof.
  intros Hc Hsh Hw.
  destruct (get_spreadsheet_connected env w Hc)
    as (w0 & evs0 & Hrun & Hf & Hs & Ha).
  unfold _ensure_ws. unfold bind at 1. rewrite Hrun.
  rewrite <- Hs in Hsh. destruct Hf as (Ht & Ho & Hn & Htr & Hm).
  unfold mirror_frame. run_sheets. rewrite Hw. cbn -[app last].
  rewrite Hsh. cbn -[app last].
  destruct (get_values_ok env); cbn -[app last]; rewrite ?Hsh; cbn -[app last].
  - destruct content as [|x c]; cbn -[app last].
    + destruct (header_append_ok env); cbn -[app last]; rewrite ?Hsh;
        cbn -[app last];
        eexists; exists (evs0 ++ [EvSheets (Worksheet title);
                                  EvSheets GetAllValues;
                                  EvSheets (AppendRow headers)]);
        (split; [reflexivity|]); cbn -[app last];
        rewrite Htr, <- ?app_assoc, forallb_app, existsb_app, Hm, Ha;
        cbn [app]; repeat split; auto.
    + eexists; exists (evs0 ++ [EvSheets (Worksheet title);
                                EvSheets GetAllValues]);
        (split; [reflexivity|]); cbn -[app last];
        rewrite Htr, <- ?app_assoc, forallb_app, existsb_app, Hm, Ha;
        cbn [app]; repeat split; auto.
  - eexists; exists (evs0 ++ [EvSheets (Worksheet title);
                              EvSheets GetAllValues]);
      (split; [reflexivity|]); cbn -[app last];
      rewrite Htr, <- ?app_assoc, forallb_app, existsb_app, Hm, Ha;
      cbn [app]; repeat split; auto.
    rewrite Hsh. destruct content; reflexivity.
Qed.

Lemma mirror_block_existing i p e r o s env w content :
  connects env w = true ->
  sheet w = Some content ->
  worksheet_ok env = true ->
  row_append_ok env = true ->
  exists w' evs,
    mirror_block i p e r o s env w = (Ok tt, w')
    /\ mirror_frame w w' evs
    /\ existsb is_alarm evs = false
    /\ sheet w'
       = Some (match content with
               | [] => if get_values_ok env && header_append_ok env
                       then [HEADERS] else []
               | _ :: _ => content
               end ++ [[now_sheet env; i; p; e; r; o; s]]).
Proof.
  intros Hc Hsh Hw Hrow.
  destruct (ensure_ws_existing WS_TITLE HEADERS env w content Hc Hsh Hw)
    as (w1 & evs1 & Hrun & (Ht & Ho & Hn & Htr & Hm) & Ha & Hs).
  unfold mirror_block, try_except. unfold bind at 1. rewrite Hrun.
  unfold mirror_frame. run_sheets. rewrite Hrow. cbn -[app last HEADERS].
  rewrite Hs. cbn -[app last HEADERS].
  eexists; exists (evs1 ++ [EvSheets (AppendRow [now_sheet env; i; p; e; r; o; s])]).
  split; [reflexivity|]. cbn -[app last HEADERS].
  rewrite Htr, <- ?app_assoc, forallb_app, existsb_app, Hm, Ha.
  repeat split; auto.
Qed.

(** ** [add_vnos] for any outside *)

(** When [add_vnos] returns, the table existed, the row got its id, and the
    four calls on the connection were made in order. *)
Lemma add_vnos_ok_inv i p e r o s env w v w1 :
  add_vnos i p e r o s env w = (Ok v, w1) ->
  exists t t',
    table w = Some t
    /\ Sql.insert (now_db env) i p e r o s t = Some t'
    /\ v = Py.None_
    /\ w1 = after_store (Some t')
              [EvConnect (next_conn w);
               EvExecute (next_conn w) (Insert (now_db env) i p e r o s);
               EvCommit (next_conn w); EvClose (next_conn w)] w.
Proof.
  run_store. split_store; intros H; try discriminate.
  injection H as <- <-.
  eexists; eexists; split; [reflexivity|]; split; [eassumption|];
    split; [reflexivity|].
  unfold after_store, record_event; cbn. repeat rewrite <- app_assoc. reflexivity.
Qed.

(** When [add_vnos] raises, the worksheet is as before and only calls to
    SQLite were made. *)
Lemma add_vnos_raise_inv i p e r o s env w x w1 :
  add_vnos i p e r o s env w = (Raise x, w1) ->
  sheet w1 = sheet w
  /\ exists evs, trace w1 = trace w ++ evs /\ forallb is_db_event evs = true.
Proof.
  run_store. split_store; intros H; try discriminate; injection H as <- <-.
  all: cbn; split; [reflexivity|].
  all: eexists; split;
    [ unfold record_event; cbn; repeat rewrite <- app_assoc; reflexivity
    | reflexivity ].
Qed.

(** ** Rejections *)

Lemma field_blank (f : Form) (name : string) :
  match form_get f (u name) with
  | None => True
  | Some v => Py.strip v = []
  end ->
  field f name = [].
Proof.
  unfold field, form_get_d. destruct (form_get f (u name)); [tauto | reflexivity].
Qed.

Lemma required_ok_false (f : Form) (name : string) :
  In name REQUIRED -> field f name = [] -> required_ok f = false.
Proof.
  intros Hin Hb. unfold required_ok. apply not_true_is_false. intros H.
  rewrite forallb_forall in H. specialize (H name Hin).
  rewrite Hb in H. discriminate.
Qed.

Lemma find_first {A} (P : A -> bool) (before after : list A) (x : A) :
  (forall y, In y before -> P y = false) -> P x = true ->
  find P (before ++ x :: after) = Some x.
Proof.
  induction before as [|b before IH]; simpl; intros Hb Hx.
  - now rewrite Hx.
  - rewrite (Hb b) by now left. apply IH; auto.
Qed.

Lemma find_none_in {A} (P : A -> bool) (l : list A) :
  (forall y, In y l -> P y = false) -> find P l = None.
Proof.
  induction l as [|b l IH]; simpl; intros Hb; [reflexivity|].
  rewrite (Hb b) by now left. apply IH; auto.
Qed.

Lemma not_offending (f : Form) p :
  (checked f p = true -> teacher_of f p <> []) -> offending f p = false.
Proof.
  unfold offending. destruct (checked f p); [|reflexivity].
  intros H. destruct (teacher_of f p); [now elim H | reflexivity].
Qed.

Lemma prefixb_app (a b : pystr) : prefixb a (a ++ b) = true.
Proof. induction a as [|x a IH]; simpl; [|rewrite N.eqb_refl]; auto. Qed.

Lemma contains_app (n a b : pystr) : contains n (a ++ n ++ b) = true.
Proof.
  induction a as [|x a IH]; simpl.
  - destruct (n ++ b) eqn:E; simpl; rewrite <- E, prefixb_app; reflexivity.
  - rewrite IH. apply orb_true_r.
Qed.

(** ** What [oddaj] persists *)

(** The record [oddaj] adds for a form. *)
Lemma oddaj_persisted (f : Form) env w t :
  required_ok f = true ->
  find (offending f) PREDMETI = None ->
  store_ok env = true ->
  table w = Some t ->
  Sql.next_rowid t <= Sql.MAX_ROWID ->
  fst (oddaj f env w) = Ok (Redirect "index")
  /\ table (snd (oddaj f env w))
     = Some (mkTable
               (rows t ++
                [mkRow (Sql.next_rowid t) (now_db env) (field f "ime")
                       (field f "priimek") (field f "email") (field f "razred")
                       (field f "oddelek") (summary f)])
               (Sql.next_rowid t)).
Proof.
  intros Hr Hf Hok Ht Hroom.
  rewrite (oddaj_valid f env w Hr Hf). cbv beta delta [bind].
  rewrite (add_vnos_run _ _ _ _ _ _ env w t _ Hok Ht
             (insert_some _ _ _ _ _ _ _ _ Hroom)).
  match goal with
  | |- context [mirror_block ?i ?p ?e ?r ?o ?s env ?w1] =>
    destruct (mirror_block_run i p e r o s env w1)
      as (wm & evs & Hm & (Hft & _) & _)
  end.
  rewrite Hm. cbn. rewrite Hft. split; reflexivity.
Qed.

Lemma oddaj_quiet_mirror (f : Form) env w t content :
  required_ok f = true ->
  find (offending f) PREDMETI = None ->
  store_ok env = true ->
  table w = Some t ->
  Sql.next_rowid t <= Sql.MAX_ROWID ->
  connects env w = true ->
  sheet w = Some content ->
  worksheet_ok env = true ->
  row_append_ok env = true ->
  exists evs,
    trace (snd (oddaj f env w)) = trace w ++ evs
    /\ existsb is_alarm evs = false
    /\ sheet (snd (oddaj f env w))
       = Some (match content with
               | [] => if get_values_ok env && header_append_ok env
                       then [HEADERS] else []
               | _ :: _ => content
               end
               ++ [[now_sheet env; field f "ime"; field f "priimek";
                    field f "email"; field f "razred"; field f "oddelek";
                    summary f]]).
Proof.
  intros Hr Hf Hok Ht Hroom Hc Hsh Hw Hrow.
  rewrite (oddaj_valid f env w Hr Hf). cbv beta delta [bind].
  rewrite (add_vnos_run _ _ _ _ _ _ env w t _ Hok Ht
             (insert_some _ _ _ _ _ _ _ _ Hroom)).
  match goal with
  | |- context [mirror_block ?i ?p ?e ?r ?o ?s env ?w1] =>
    destruct (mirror_block_existing i p e r o s env w1 content Hc Hsh Hw Hrow)
      as (wm & evs & Hm & (_ & _ & _ & Htr & _) & Ha & Hs)
  end.
  rewrite Hm. cbn -[app HEADERS]. rewrite Htr, Hs. cbn -[app HEADERS].
  eexists. rewrite <- !app_assoc. split; [reflexivity|].
  split; [|reflexivity].
  cbn [app existsb is_alarm orb]. rewrite existsb_app, Ha. reflexivity.
Qed.

Lemma field_truthy (f : Form) (name : string) :
  required_ok f = true -> In name REQUIRED -> field f name <> [].
Proof.
  unfold required_ok. rewrite forallb_forall. intros H Hin E.
  specialize (H name Hin). rewrite E in H. discriminate.
Qed.

(** ** What [oddaj] reads of the form *)

Lemma find_ext_in {A} (P Q : A -> bool) (l : list A) :
  (forall x, In x l -> P x = Q x) -> find P l = find Q l.
Proof.
  induction l as [|a l IH]; simpl; intros H; [reflexivity|].
  rewrite (H a) by now left. rewrite IH; [reflexivity|]. intros; apply H; now right.
Qed.

Lemma segments_agree (f f' : Form) (catalog : list (pystr * pystr)) :
  (forall p, In p catalog -> checked f' p = checked f p) ->
  (forall p, In p catalog -> checked f p = true ->
             teacher_of f' p = teacher_of f p) ->
  segments f' catalog = segments f catalog.
Proof.
  intros Hc Ht. unfold segments.
  rewrite (filter_ext_in (checked f') (checked f) catalog Hc).
  apply map_ext_in. intros p Hp. apply filter_In in Hp as [Hin Hp].
  now rewrite (Ht p Hin Hp).
Qed.

(** [oddaj] reads of the form the five required fields, the checkboxes of
    the catalog, and the teacher names of the subjects that are checked. *)
Lemma oddaj_agree (f f' : Form) :
  (forall name, In name REQUIRED -> field f' name = field f name) ->
  (forall p, In p PREDMETI -> checked f' p = checked f p) ->
  (forall p, In p PREDMETI -> checked f p = true ->
             teacher_of f' p = teacher_of f p) ->
  forall env w, oddaj f' env w = oddaj f env w.
Proof.
  intros Hfield Hc Ht env w.
  assert (Hreq : required_ok f' = required_ok f).
  { unfold required_ok. revert Hfield.
    induction REQUIRED as [|n ns IH]; simpl; intros Hfield; [reflexivity|].
    rewrite (Hfield n) by now left. rewrite IH; [reflexivity|].
    intros; apply Hfield; now right. }
  assert (Hfind : find (offending f') PREDMETI = find (offending f) PREDMETI).
  { apply find_ext_in. intros p Hp. unfold offending.
    rewrite (Hc p Hp). destruct (checked f p) eqn:E; [|reflexivity].
    now rewrite (Ht p Hp E). }
  destruct (required_ok f) eqn:Er.
  - destruct (find (offending f) PREDMETI) as [p|] eqn:Ef.
    + rewrite (oddaj_offending f' p env w Hreq Hfind).
      now rewrite (oddaj_offending f p env w Er Ef).
    + rewrite (oddaj_valid f' env w Hreq Hfind), (oddaj_valid f env w Er Ef).
      assert (Hs : summary f' = summary f).
      { unfold summary. now rewrite (segments_agree f f' PREDMETI Hc Ht). }
      rewrite Hs.
      rewrite !Hfield by (simpl; tauto). reflexivity.
  - rewrite (oddaj_required f' env w Hreq). now rewrite (oddaj_required f env w Er).
Qed.

(** Two forms that answer alike to every key are treated alike. *)
Lemma oddaj_ext (f f' : Form) :
  (forall k, form_get f' k = form_get f k) ->
  forall env w, oddaj f' env w = oddaj f env w.
Proof.
  intros H. apply oddaj_agree.
  - intros name _. unfold field, form_get_d. now rewrite H.
  - intros p _. unfold checked, is_on. now rewrite H.
  - intros p _ _. unfold teacher_of, form_get_d. now rewrite H.
Qed.

Lemma join_nonempty (sep x : pystr) (xs : list pystr) :
  x <> [] -> Py.join sep (x :: xs) <> [].
Proof.
  intros Hx. simpl. destruct xs; [exact Hx|].
  intros E. apply app_eq_nil in E as [E _]. now apply Hx.
Qed.

Lemma summary_nonempty (f : Form) : summary f <> [].
Proof.
  unfold summary. destruct (segments f PREDMETI) as [|x xs] eqn:E;
    [discriminate|].
  apply join_nonempty. unfold segments in E.
  destruct (filter (checked f) PREDMETI) as [|p ps]; [discriminate|].
  injection E as <- _. intros H. apply app_eq_nil in H as [_ H]. discriminate.
Qed.

(** ** The keys of the form *)

Lemma chk_not_teacher (q p : pystr * pystr) : chk_key q <> teacher_key p.
Proof. discriminate. Qed.

Lemma required_not_teacher (name : string) (p : pystr * pystr) :
  In name REQUIRED -> u name <> teacher_key p.
Proof.
  simpl. intros [<-|[<-|[<-|[<-|[<-|[]]]]]]; discriminate.
Qed.

Lemma teacher_key_checked (f : Form) (q p : pystr * pystr) :
  teacher_key q = teacher_key p -> checked f q = checked f p.
Proof.
  unfold teacher_key, checked, chk_key. intros H.
  apply app_inv_head in H. now rewrite H.
Qed.

Lemma form_get_app (a b : Form) k :
  form_get (a ++ b) k =
  match form_get a k with
  | Some v => Some v
  | None => form_get b k
  end.
Proof.
  induction a as [|[k0 v0] a IH]; simpl; [reflexivity|].
  now destruct (Py.eqb k0 k).
Qed.

(** ** The listing *)

Lemma insert_desc_perm (r : Row) (rs : list Row) :
  Permutation (Sql.insert_desc r rs) (r :: rs).
Proof.
  induction rs as [|x rs IH]; simpl; [reflexivity|].
  destruct (id x <=? id r); [reflexivity|].
  rewrite IH. apply perm_swap.
Qed.

Lemma insert_desc_sorted (r : Row) (rs : list Row) :
  StronglySorted id_desc rs -> StronglySorted id_desc (Sql.insert_desc r rs).
Proof.
  induction 1 as [|x rs Hs IH Hall]; simpl.
  - repeat constructor.
  - destruct (Z.leb_spec (id x) (id r)) as [Hle|Hlt].
    + constructor; [now constructor|]. constructor; [exact Hle|].
      eapply Forall_impl; [|exact Hall]. unfold id_desc. intros; lia.
    + constructor; [exact IH|].
      eapply Permutation_Forall; [apply Permutation_sym, insert_desc_perm|].
      constructor; [unfold id_desc; lia | exact Hall].
Qed.

Lemma select_desc_perm (t : Table) : Permutation (Sql.select_desc t) (rows t).
Proof.
  unfold Sql.select_desc. induction (rows t) as [|r rs IH]; simpl; [reflexivity|].
  rewrite insert_desc_perm. now constructor.
Qed.

Lemma select_desc_sorted (t : Table) : StronglySorted id_desc (Sql.select_desc t).
Proof.
  unfold Sql.select_desc. induction (rows t) as [|r rs IH]; simpl.
  - constructor.
  - now apply insert_desc_sorted.
Qed.

(** With ids that are all different, as those of a primary key are, the
    listing is strictly descending. *)
Lemma sorted_strict (l : list Row) :
  StronglySorted id_desc l -> NoDup (map id l) ->
  StronglySorted (fun a b => id b < id a) l.
Proof.
  induction 1 as [|a l Hs IH Hall]; simpl; intros ND; [constructor|].
  inversion ND as [|? ? Hnin ND']; subst.
  constructor; [now apply IH|].
  rewrite Forall_forall in *. intros b Hb.
  specialize (Hall b Hb). unfold id_desc in Hall.
  assert (id b <> id a); [|lia].
  intros E. apply Hnin. rewrite <- E. now apply in_map.
Qed.

(** The ids stay all different through INSERT and DELETE, and an id that
    was given once is not given again. *)
Lemma insert_keeps_key d i p e r o s (t t' : Table) :
  NoDup (map id (rows t)) ->
  Sql.insert d i p e r o s t = Some t' ->
  NoDup (map id (rows t')) /\ seq t < seq t' /\ Sql.max_id (rows t) < seq t'.
Proof.
  unfold Sql.insert. cbv zeta.
  destruct (Sql.next_rowid t <=? Sql.MAX_ROWID); [|discriminate].
  intros ND H. injection H as <-. cbn [rows seq].
  split; [|unfold Sql.next_rowid; lia].
  rewrite map_app. cbn [map id].
  apply Permutation_NoDup with (l := Sql.next_rowid t :: map id (rows t)).
  - apply Permutation_cons_append.
  - constructor; [|exact ND]. intros Hin. apply in_map_iff in Hin as (x & Hx & Hin).
    apply next_rowid_fresh in Hin. lia.
Qed.

Lemma delete_keeps_key row_id (t : Table) :
  NoDup (map id (rows t)) -> NoDup (map id (rows (Sql.delete row_id t))).
Proof.
  unfold Sql.delete. cbn [rows]. induction (rows t) as [|x l IH]; simpl; intros ND.
  - constructor.
  - inversion ND as [|? ? Hnin ND']; subst.
    destruct (negb (id x =? row_id)); simpl; [|now apply IH].
    constructor; [|now apply IH]. intros Hin. apply Hnin.
    apply in_map_iff in Hin as (y & Hy & Hin). apply filter_In in Hin as [Hin _].
    rewrite <- Hy. now apply in_map.
Qed.

(** ** UTF-8 *)

Lemma encode_cp_scalar (c : N) :
  Utf8.scalar c = true -> exists bs, Utf8.encode_cp c = Some bs.
Proof.
  unfold Utf8.scalar, Utf8.encode_cp. intros H.
  destruct (N.ltb_spec c 0x80); [eauto|].
  destruct (N.ltb_spec c 0x800); [eauto|].
  destruct (N.ltb_spec c 0x10000).
  - destruct (N.leb_spec 0xD800 c), (N.leb_spec c 0xDFFF); cbn [andb]; eauto.
    exfalso.
    destruct (N.ltb_spec c 0xD800); [lia|].
    destruct (N.ltb_spec 0xDFFF c); [lia|]. discriminate.
  - destruct (N.ltb_spec c 0x110000); [eauto|].
    exfalso.
    destruct (N.ltb_spec c 0xD800); [lia|].
    destruct (N.ltb_spec 0xDFFF c); [|discriminate]. discriminate.
Qed.

Lemma encode_scalar (s : pystr) :
  forallb Utf8.scalar s = true -> exists bs, Utf8.encode s = Some bs.
Proof.
  induction s as [|c s IH]; simpl; [eauto|].
  intros H. apply andb_true_iff in H as [Hc Hs].
  destruct (encode_cp_scalar c Hc) as [x ->].
  destruct (IH Hs) as [y ->]. eauto.
Qed.

Lemma encode_app (a b : pystr) x y :
  Utf8.encode a = Some x -> Utf8.encode b = Some y ->
  Utf8.encode (a ++ b) = Some (x ++ y).
Proof.
  revert x. induction a as [|c a IH]; simpl; intros x Ha Hb.
  - injection Ha as <-. exact Hb.
  - destruct (Utf8.encode_cp c) as [bs|]; [|discriminate].
    destruct (Utf8.encode a) as [r|]; [|discriminate].
    injection Ha as <-. rewrite (IH r eq_refl Hb). now rewrite app_assoc.
Qed.

Lemma encode_concat (lines : list pystr) (bs : list (list N)) :
  Forall2 (fun l b => Utf8.encode l = Some b) lines bs ->
  Utf8.encode (List.concat lines) = Some (List.concat bs).
Proof.
  induction 1 as [|l b lines bs Hl _ IH]; simpl; [reflexivity|].
  now apply encode_app.
Qed.

(** ** The export *)

Lemma scalar_digits (d : Decimal.uint) :
  forallb Utf8.scalar
    (map N_of_ascii (list_ascii_of_string (NilEmpty.string_of_uint d))) = true.
Proof. induction d; simpl; auto. Qed.

Lemma scalar_uint (d : Decimal.uint) :
  forallb Utf8.scalar
    (map N_of_ascii (list_ascii_of_string (NilZero.string_of_uint d))) = true.
Proof.
  unfold NilZero.string_of_uint. destruct d; try reflexivity; apply scalar_digits.
Qed.

Lemma scalar_str_of_int (z : Z) : forallb Utf8.scalar (Py.str_of_int z) = true.
Proof.
  unfold Py.str_of_int, NilZero.string_of_int.
  destruct (Z.to_int z) as [d|d]; [apply scalar_uint|].
  cbn [list_ascii_of_string map forallb]. rewrite scalar_uint. reflexivity.
Qed.

Lemma scalar_escape (s : pystr) :
  forallb Utf8.scalar s = true -> forallb Utf8.scalar (csv.escape s) = true.
Proof.
  unfold csv.escape. induction s as [|c s IH]; simpl; [reflexivity|].
  intros H. apply andb_true_iff in H as [Hc Hs].
  rewrite forallb_app, (IH Hs), andb_true_r.
  destruct (c =? csv.quotechar)%N; simpl; [reflexivity | now rewrite Hc].
Qed.

Lemma scalar_quote_field (s : pystr) :
  forallb Utf8.scalar s = true -> forallb Utf8.scalar (csv.quote_field s) = true.
Proof.
  intros H. unfold csv.quote_field. destruct (csv.needs_quotes s); [|exact H].
  rewrite !forallb_app, (scalar_escape s H). reflexivity.
Qed.

Lemma scalar_join (sep : pystr) (xs : list pystr) :
  forallb Utf8.scalar sep = true ->
  forallb (forallb Utf8.scalar) xs = true ->
  forallb Utf8.scalar (Py.join sep xs) = true.
Proof.
  intros Hsep. induction xs as [|x xs IH]; simpl; [reflexivity|].
  intros H. apply andb_true_iff in H as [Hx Hxs].
  destruct xs as [|y ys]; [exact Hx|].
  rewrite !forallb_app, Hx, Hsep. now rewrite IH.
Qed.

Lemma scalar_csv_line (r : Row) :
  row_text_ok r = true -> forallb Utf8.scalar (csv_line r) = true.
Proof.
  unfold row_text_ok, csv_line. intros H.
  rewrite forallb_app. apply andb_true_iff. split; [|reflexivity].
  apply scalar_join; [reflexivity|].
  cbn [map forallb] in *.
  repeat (apply andb_true_iff in H as [?Hx H]).
  rewrite (scalar_quote_field _ (scalar_str_of_int (id r))).
  rewrite !scalar_quote_field by assumption. reflexivity.
Qed.

Lemma writerow_row (r : Row) : csv.writerow (row_tuple r) = csv_line r.
Proof.
  unfold csv.writerow, csv_line, row_tuple.
  cbn [map csv.field_str Py.join].
  destruct (csv.quote_field (Py.str_of_int (id r))); reflexivity.
Qed.

Lemma writerow_header : csv.writerow CSV_HEADER = CSV_HEADER_LINE.
Proof. reflexivity. Qed.

Lemma export_buffer (rs : list Row) (buf : pystr) :
  fold_left (fun b r => b ++ csv.writerow (row_tuple r)) rs buf
  = buf ++ List.concat (map csv_line rs).
Proof.
  revert buf. induction rs as [|r rs IH]; intros buf.
  - simpl. now rewrite app_nil_r.
  - cbn [fold_left map List.concat].
    rewrite IH, writerow_row. now rewrite <- app_assoc.
Qed.

Lemma encode_lines (rs : list Row) :
  forallb row_text_ok rs = true ->
  exists bs, Forall2 (fun r b => Utf8.encode (csv_line r) = Some b) rs bs.
Proof.
  induction rs as [|r rs IH]; simpl; intros H.
  - exists []. constructor.
  - apply andb_true_iff in H as [Hr Hrs].
    destruct (encode_scalar _ (scalar_csv_line r Hr)) as [b Hb].
    destruct (IH Hrs) as [bs Hbs]. exists (b :: bs). now constructor.
Qed.

Lemma forall2_map_l {A B C} (g : A -> B) (P : B -> C -> Prop) l l' :
  Forall2 (fun a c => P (g a) c) l l' -> Forall2 P (map g l) l'.
Proof. induction 1; simpl; constructor; auto. Qed.

(** * The claims *)

(** C1 (amended). For a submission that passes validation, [oddaj] first
    runs the local write [add_vnos]. If that raises, the request ends with
    the same exception, the worksheet is untouched and no call to the
    spreadsheet service was made. If it returns, the row is in the table, and
    only then comes the attempt on the mirror, which never raises: whatever
    the spreadsheet service does, the events that follow the local write are
    calls to the service and log entries, the attempt ends with the row
    appended, with the warning logged (no connection) or with the error
    logged (a call failed), and the request ends with the acknowledgment
    flashed and the redirect. When no call to SQLite fails the request is
    acknowledged. Not every failure is logged: on a worksheet that exists,
    when the look at its rows or the writing of its header fails, the row is
    appended all the same (to a worksheet without header, if it had no row)
    and no warning and no error is logged. *)
Theorem oddaj_store_before_mirror (f : Form) env w :
  required_ok f = true ->
  find (offending f) PREDMETI = None ->
  let store :=
    add_vnos (field f "ime") (field f "priimek") (field f "email")
             (field f "razred") (field f "oddelek") (summary f) in
  let row :=
    [now_sheet env; field f "ime"; field f "priimek"; field f "email";
     field f "razred"; field f "oddelek"; summary f] in
  ((exists x w1,
       store env w = (Raise x, w1)
       /\ oddaj f env w = (Raise x, w1)
       /\ sheet w1 = sheet w
       /\ exists evs, trace w1 = trace w ++ evs
                      /\ forallb is_db_event evs = true)
   \/
   (exists t t' w1 w2 evs,
       table w = Some t
       /\ Sql.insert (now_db env) (field f "ime") (field f "priimek")
                     (field f "email") (field f "razred") (field f "oddelek")
                     (summary f) t = Some t'
       /\ store env w = (Ok Py.None_, w1)
       /\ table w1 = Some t'
       /\ (exists h q, trace w1 = trace w ++ [EvConnect h; EvExecute h q;
                                               EvCommit h; EvClose h])
       /\ oddaj f env w = (Ok (Redirect "index"), w2)
       /\ trace w2 = trace w1 ++ evs ++ [EvFlash MSG_THANKS (u "ok")]
       /\ forallb is_mirror_event evs = true
       /\ table w2 = table w1
       /\ mirror_outcome row w1 w2 evs))
  /\ (store_ok env = true ->
      (exists t, table w = Some t /\ Sql.next_rowid t <= Sql.MAX_ROWID) ->
      fst (oddaj f env w) = Ok (Redirect "index"))
  /\ (forall content,
         store_ok env = true ->
         (exists t, table w = Some t /\ Sql.next_rowid t <= Sql.MAX_ROWID) ->
         connects env w = true ->
         sheet w = Some content ->
         worksheet_ok env = true ->
         row_append_ok env = true ->
         exists evs,
           trace (snd (oddaj f env w)) = trace w ++ evs
           /\ existsb is_alarm evs = false
           /\ sheet (snd (oddaj f env w))
              = Some (match content with
                      | [] => if get_values_ok env && header_append_ok env
                              then [HEADERS] else []
                      | _ :: _ => content
                      end ++ [row])).
Proof.
  intros Hr Hf store row. split; [|split].
  3: { intros content Hok (t & Ht & Hroom) Hc Hsh Hw Hrow.
       exact (oddaj_quiet_mirror f env w t content Hr Hf Hok Ht Hroom Hc Hsh
                Hw Hrow). }
  - rewrite (oddaj_valid f env w Hr Hf). fold store. unfold bind at 1.
    destruct (store env w) as [[v|x] w1] eqn:Es.
    + right.
      destruct (add_vnos_ok_inv _ _ _ _ _ _ _ _ _ _ Es)
        as (t & t' & Ht & Hi & -> & Hw1).
      destruct (mirror_block_run (field f "ime") (field f "priimek")
                  (field f "email") (field f "razred") (field f "oddelek")
                  (summary f) env w1)
        as (wm & evs & Hm & (Hft & Hfo & Hfn & Hftr & Hfe) & Hout).
      exists t, t', w1.
      exists (record_event (EvFlash MSG_THANKS (u "ok")) wm), evs.
      split; [exact Ht|]. split; [exact Hi|]. split; [reflexivity|].
      split; [now rewrite Hw1|].
      split; [rewrite Hw1; eexists; eexists; reflexivity|].
      split; [cbv beta delta [bind]; rewrite Es, Hm; reflexivity|].
      split; [cbn; rewrite Hftr; now rewrite app_assoc|].
      split; [exact Hfe|]. split; [exact Hft|]. exact Hout.
    + left. exists x, w1. split; [reflexivity|].
      split; [reflexivity|].
      exact (add_vnos_raise_inv _ _ _ _ _ _ _ _ _ _ Es).
  - intros Hok (t & Ht & Hroom).
    exact (proj1 (oddaj_persisted f env w t Hr Hf Hok Ht Hroom)).
Qed.

Lemma oddaj_store_before_mirror_witness :
  required_ok form_ana = true
  /\ find (offending form_ana) PREDMETI = None
  /\ store_ok env_row_fails = true
  /\ fst (oddaj form_ana env_row_fails w_empty) = Ok (Redirect "index").
Proof.
  split; [reflexivity|]. split; [reflexivity|]. split; [reflexivity|].
  apply (oddaj_store_before_mirror form_ana env_row_fails w_empty);
    [reflexivity | reflexivity | reflexivity |].
  exists (mkTable [] 0). split; [reflexivity | vm_compute; discriminate].
Defined.

(** C1, as stated, fails: here the worksheet exists without any row and the
    service refuses the header. The failure is caught, but nothing is logged:
    the row is appended to a worksheet that has no header, and the request is
    acknowledged. *)
Lemma oddaj_header_failure_silent_cx :
  let run := oddaj form_ana env_header_fails w_blank_sheet in
  required_ok form_ana = true
  /\ find (offending form_ana) PREDMETI = None
  /\ header_append_ok env_header_fails = false
  /\ fst run = Ok (Redirect "index")
  /\ In (EvSheets (AppendRow HEADERS)) (trace (snd run))
  /\ filter is_log (trace (snd run)) = []
  /\ sheet (snd run)
     = Some [[u "2025-03-01 10:00"; u "Ana"; u "Novak"; u "a@x.si";
              u "2. letnik"; u "b"; u "Matematika (Kovač)"]].
Proof.
  cbv zeta. split; [reflexivity|]. split; [reflexivity|].
  split; [reflexivity|]. split; [vm_compute; reflexivity|].
  split; [vm_compute; tauto|]. split; vm_compute; reflexivity.
Qed.

(** C2 (amended). When the five required fields are filled in, and some
    subject is checked with a teacher name that is empty once trimmed, the
    first such subject in the order of the catalog is the one [oddaj] names:
    it flashes the message made with the label of that subject, redirects to
    the form, and does nothing else: the table is as it was. *)
Theorem oddaj_missing_teacher (f : Form) before code label after env w :
  required_ok f = true ->
  PREDMETI = before ++ (code, label) :: after ->
  (forall p, In p before -> checked f p = true -> teacher_of f p <> []) ->
  checked f (code, label) = true ->
  teacher_of f (code, label) = [] ->
  oddaj f env w =
  (Ok (Redirect "index"),
   record_event (EvFlash (msg_teacher label) (u "error")) w)
  /\ contains label (msg_teacher label) = true
  /\ table (snd (oddaj f env w)) = table w
  /\ trace (snd (oddaj f env w))
     = trace w ++ [EvFlash (msg_teacher label) (u "error")].
Proof.
  intros Hr Hcat Hbefore Hc Ht.
  assert (Hfind : find (offending f) PREDMETI = Some (code, label)).
  { rewrite Hcat. apply find_first.
    - intros p Hp. apply not_offending. now apply Hbefore.
    - unfold offending. now rewrite Hc, Ht. }
  rewrite (oddaj_offending f _ env w Hr Hfind). cbn [snd].
  split; [reflexivity|]. split; [apply contains_app|]. split; reflexivity.
Qed.

Lemma oddaj_missing_teacher_witness :
  required_ok form_no_teacher = true
  /\ checked form_no_teacher (u "mat", u "Matematika") = true
  /\ teacher_of form_no_teacher (u "mat", u "Matematika") = []
  /\ trace (snd (oddaj form_no_teacher env_ok w_empty))
     = [EvFlash (u "Vnesite učitelja pri predmetu Matematika.") (u "error")].
Proof.
  split; [reflexivity|]. split; [reflexivity|]. split; [reflexivity|].
  apply (oddaj_missing_teacher form_no_teacher [] (u "mat") (u "Matematika")
           (tl PREDMETI) env_ok w_empty);
    [reflexivity | reflexivity | intros p [] | reflexivity | reflexivity].
Defined.

(** C2, as stated, fails: with mathematics checked without a teacher and the
    e-mail blank, the message is the one about the required fields, and it
    does not name the subject. *)
Lemma oddaj_missing_teacher_cx :
  checked form_no_email (u "mat", u "Matematika") = true
  /\ teacher_of form_no_email (u "mat", u "Matematika") = []
  /\ trace (snd (oddaj form_no_email env_ok w_empty))
     = [EvFlash MSG_REQUIRED (u "error")]
  /\ contains (u "Matematika") MSG_REQUIRED = false.
Proof. repeat split. Qed.

(** C3. For a submission that passes validation, the summary of the record
    [oddaj] adds is made of the subjects that are checked, taken in the order
    of the catalog: one "Label (Teacher)" for each, with the trimmed teacher
    name, joined by "; "; when no subject is checked it is the dash. It is
    never empty, and the order in which the form sent its fields does not
    matter. *)
Theorem oddaj_subjects_summary (f : Form) env w t :
  required_ok f = true ->
  (forall p, In p PREDMETI -> checked f p = true -> teacher_of f p <> []) ->
  store_ok env = true ->
  table w = Some t ->
  Sql.next_rowid t <= Sql.MAX_ROWID ->
  let subjects := filter (checked f) PREDMETI in
  let segs :=
    map (fun p => snd p ++ u " (" ++ teacher_of f p ++ u ")") subjects in
  (exists r,
      option_map rows (table (snd (oddaj f env w))) = Some (rows t ++ [r])
      /\ predmeti r = match segs with
                      | [] => u "—"
                      | _ :: _ => Py.join (u "; ") segs
                      end
      /\ predmeti r <> [])
  /\ List.length segs = List.length subjects
  /\ (forall f', Permutation f f' -> NoDup (map fst f) ->
                 forall env' w', oddaj f' env' w' = oddaj f env' w').
Proof.
  intros Hr Hteach Hok Ht Hroom subjects segs.
  assert (Hf : find (offending f) PREDMETI = None).
  { apply find_none_in. intros p Hp. apply not_offending. now apply Hteach. }
  destruct (oddaj_persisted f env w t Hr Hf Hok Ht Hroom) as [_ Hp].
  split; [|split].
  - eexists. rewrite Hp. cbn [option_map rows predmeti].
    split; [reflexivity|]. split; [|apply summary_nonempty].
    change segs with (segments f PREDMETI). unfold summary.
    now destruct (segments f PREDMETI).
  - apply length_map.
  - intros f' HP ND. apply oddaj_ext. now apply form_get_perm.
Qed.

Lemma oddaj_subjects_summary_witness :
  required_ok form_ana = true
  /\ store_ok env_ok = true
  /\ Permutation form_ana form_ana_shuffled
  /\ (exists r,
         option_map rows (table (snd (oddaj form_ana env_ok w_empty))) = Some [r]
         /\ predmeti r = u "Matematika (Kovač)")
  /\ oddaj form_ana_shuffled env_ok w_empty = oddaj form_ana env_ok w_empty.
Proof.
  assert (HP : Permutation form_ana form_ana_shuffled).
  { unfold form_ana_shuffled. rewrite <- (rev_involutive form_ana) at 1.
    apply Permutation_sym, Permutation_rev. }
  assert (ND : NoDup (map fst form_ana)).
  { repeat constructor; simpl; intuition discriminate. }
  split; [reflexivity|]. split; [reflexivity|]. split; [exact HP|].
  destruct (oddaj_subjects_summary form_ana env_ok w_empty (mkTable [] 0))
    as ((r & Hrows & Hsum & _) & _ & Hperm);
    [ reflexivity
    | intros p Hp Hc; simpl in Hp;
      repeat (destruct Hp as [<-|Hp]; [try discriminate Hc|]);
      [vm_compute; discriminate | destruct Hp]
    | reflexivity | reflexivity | vm_compute; discriminate |].
  split.
  - exists r. split; [exact Hrows | exact Hsum].
  - exact (Hperm form_ana_shuffled HP ND env_ok w_empty).
Defined.

(** C4. When one of the five required fields is missing from the form, or
    blank once trimmed, [oddaj] flashes the one message about the required
    fields, whichever field it is, redirects to the form, and does nothing
    else: the table is as it was and no call to SQLite was made. *)
Theorem oddaj_required_fields (f : Form) (name : string) env w :
  In name REQUIRED ->
  match form_get f (u name) with
  | None => True
  | Some v => Py.strip v = []
  end ->
  oddaj f env w =
  (Ok (Redirect "index"), record_event (EvFlash MSG_REQUIRED (u "error")) w)
  /\ table (snd (oddaj f env w)) = table w
  /\ trace (snd (oddaj f env w)) = trace w ++ [EvFlash MSG_REQUIRED (u "error")].
Proof.
  intros Hin Hb. apply field_blank in Hb.
  rewrite (oddaj_required f env w (required_ok_false f name Hin Hb)).
  repeat split.
Qed.

Lemma oddaj_required_fields_witness :
  In "email"%string REQUIRED
  /\ form_get form_no_email (u "email") = Some (u " ")
  /\ trace (snd (oddaj form_no_email env_ok w_empty))
     = [EvFlash MSG_REQUIRED (u "error")].
Proof.
  split; [simpl; tauto|]. split; [reflexivity|].
  apply (oddaj_required_fields form_no_email "email" env_ok w_empty);
    [simpl; tauto | reflexivity].
Defined.

(** C5 (amended). When no call to SQLite fails and the texts can be bound
    (no lone surrogate), [add_vnos] inserts one new record, to which SQLite
    gives an id larger than every id of the table, and returns None: the id
    is not handed back to the caller. *)
Theorem add_vnos_returns_none i p e r o s env w t :
  store_ok env = true ->
  table w = Some t ->
  Sql.next_rowid t <= Sql.MAX_ROWID ->
  bindable [now_db env; i; p; e; r; o; s] = true ->
  fst (add_vnos i p e r o s env w) = Ok Py.None_
  /\ table (snd (add_vnos i p e r o s env w))
     = Some (mkTable
               (rows t ++ [mkRow (Sql.next_rowid t) (now_db env) i p e r o s])
               (Sql.next_rowid t))
  /\ (forall x, In x (rows t) -> id x < Sql.next_rowid t).
Proof.
  intros Hok Ht Hroom _.
  rewrite (add_vnos_run i p e r o s env w t _ Hok Ht
             (insert_some _ _ _ _ _ _ _ _ Hroom)).
  split; [reflexivity|]. split; [reflexivity|].
  intros x. apply next_rowid_fresh.
Qed.

Lemma add_vnos_returns_none_witness :
  store_ok env_ok = true
  /\ bindable [now_db env_ok; u "Ana"; u "Novak"; u "a@x.si"; u "2. letnik";
               u "b"; u "—"] = true
  /\ fst (add_vnos (u "Ana") (u "Novak") (u "a@x.si") (u "2. letnik") (u "b")
                   (u "—") env_ok w_empty) = Ok Py.None_.
Proof.
  split; [reflexivity|]. split; [reflexivity|].
  apply (add_vnos_returns_none (u "Ana") (u "Novak") (u "a@x.si")
           (u "2. letnik") (u "b") (u "—") env_ok w_empty (mkTable [] 0));
    [reflexivity | reflexivity | vm_compute; discriminate | reflexivity].
Defined.

(** C5, as stated, fails: on the empty table the new record gets the id 1,
    and what [add_vnos] returns is None, not that id. *)
Lemma add_vnos_returns_id_cx :
  let run := add_vnos (u "Ana") (u "Novak") (u "a@x.si") (u "2. letnik")
                      (u "b") (u "—") env_ok w_empty in
  option_map (fun t => map id (rows t)) (table (snd run)) = Some [1]
  /\ fst run = Ok Py.None_
  /\ fst run <> Ok (Py.Int 1).
Proof. cbv zeta. split; [reflexivity|]. split; [reflexivity | discriminate]. Qed.

(** C6 (amended). The grade and the section of the record [oddaj] adds are
    the submitted values, trimmed, and they are not empty; they are among the
    four grades and the six sections the form offers when the submitted
    values are. *)
Theorem oddaj_grade_section (f : Form) env w t :
  required_ok f = true ->
  find (offending f) PREDMETI = None ->
  store_ok env = true ->
  table w = Some t ->
  Sql.next_rowid t <= Sql.MAX_ROWID ->
  exists r,
    option_map rows (table (snd (oddaj f env w))) = Some (rows t ++ [r])
    /\ razred r = Py.strip (form_get_d f (u "razred") [])
    /\ oddelek r = Py.strip (form_get_d f (u "oddelek") [])
    /\ razred r <> [] /\ oddelek r <> []
    /\ (In (Py.strip (form_get_d f (u "razred") [])) RAZREDI ->
        In (razred r) RAZREDI)
    /\ (In (Py.strip (form_get_d f (u "oddelek") [])) ODDELKI ->
        In (oddelek r) ODDELKI).
Proof.
  intros Hr Hf Hok Ht Hroom.
  destruct (oddaj_persisted f env w t Hr Hf Hok Ht Hroom) as [_ Hp].
  eexists. rewrite Hp. cbn [option_map rows razred oddelek].
  split; [reflexivity|]. split; [reflexivity|]. split; [reflexivity|].
  split; [apply (field_truthy f "razred" Hr); simpl; tauto|].
  split; [apply (field_truthy f "oddelek" Hr); simpl; tauto|].
  split; intros H; exact H.
Qed.

Lemma oddaj_grade_section_witness :
  required_ok form_ana = true
  /\ find (offending form_ana) PREDMETI = None
  /\ store_ok env_ok = true
  /\ exists r,
      option_map rows (table (snd (oddaj form_ana env_ok w_empty))) = Some [r]
      /\ In (razred r) RAZREDI /\ In (oddelek r) ODDELKI.
Proof.
  split; [reflexivity|]. split; [reflexivity|]. split; [reflexivity|].
  destruct (oddaj_grade_section form_ana env_ok w_empty (mkTable [] 0))
    as (r & Hrows & _ & _ & _ & _ & Hg & Hs);
    [reflexivity | reflexivity | reflexivity | reflexivity
     | vm_compute; discriminate |].
  exists r. split; [exact Hrows|]. split.
  - apply Hg. vm_compute. tauto.
  - apply Hs. vm_compute. tauto.
Defined.

(** C6, as stated, fails: a request with a grade and a section that the form
    does not offer is accepted, and its record is added as it is. *)
Lemma oddaj_grade_section_cx :
  let run := oddaj form_other_grade env_ok w_empty in
  fst run = Ok (Redirect "index")
  /\ option_map (fun t => map (fun r => (razred r, oddelek r)) (rows t))
                (table (snd run))
     = Some [(u "5. letnik", u "zz")]
  /\ ~ In (u "5. letnik") RAZREDI
  /\ ~ In (u "zz") ODDELKI.
Proof.
  cbv zeta. split; [reflexivity|]. split; [reflexivity|].
  split; vm_compute; intuition discriminate.
Qed.

(** C7 (amended). Each operation of the store opens a connection of its own
    first and works on that one only; on every path on which it returns
    normally it has closed that connection, and the connections that are open
    afterwards are those that were open before. *)
Theorem store_connections_scoped :
  scoped_connection init_db
  /\ (forall i p e r o s, scoped_connection (add_vnos i p e r o s))
  /\ scoped_connection all_vnosi
  /\ (forall row_id, scoped_connection (delete_vnos row_id)).
Proof.
  split; [exact init_db_scoped|]. split; [exact add_vnos_scoped|].
  split; [exact all_vnosi_scoped | exact delete_vnos_scoped].
Qed.

Lemma store_connections_scoped_witness :
  is_ok (fst (delete_vnos 1 env_ok w_two_rows)) = true
  /\ open_conns (snd (delete_vnos 1 env_ok w_two_rows)) = open_conns w_two_rows.
Proof.
  split; [reflexivity|].
  destruct store_connections_scoped as (_ & _ & _ & Hdelete).
  destruct (Hdelete 1 env_ok w_two_rows) as (evs & _ & _ & Hclosed).
  now apply Hclosed.
Defined.

(** C7, as stated, fails on the paths that raise: when the INSERT fails,
    [add_vnos] raises with its connection still open, and never called
    close. *)
Lemma store_connection_left_open_cx :
  let run := add_vnos (u "Ana") (u "Novak") (u "a@x.si") (u "2. letnik")
                      (u "b") (u "—") env_execute_fails w_empty in
  fst run = Raise SqliteError
  /\ open_conns w_empty = []
  /\ open_conns (snd run) = [0%nat]
  /\ existsb (fun e => match e with EvClose _ => true | _ => false end)
             (trace (snd run)) = false.
Proof. cbv zeta. repeat split. Qed.

(** C8. For an administrator, when no call to SQLite fails, [export_csv]
    sends a file whose bytes are the byte-order mark of UTF-8, then the UTF-8
    bytes of the header line, then those of one line for each record of the
    listing [all_vnosi] returns, in the order of that listing, which holds
    the records of the table by descending id (strictly so, when the ids are
    all different, as those of a primary key are). The header line is the
    eight column names joined by semicolons, ID first; the line of a record
    is its eight fields in the order of the header, joined by semicolons;
    each line ends with CR LF. *)
Theorem export_csv_bytes (s : Session) env w t :
  admin_ok s = true ->
  connect_ok env = true -> execute_ok env = true -> close_ok env = true ->
  table w = Some t ->
  forallb row_text_ok (rows t) = true ->
  exists listing row_bytes,
    fst (all_vnosi env w) = Ok listing
    /\ Permutation listing (rows t)
    /\ StronglySorted id_desc listing
    /\ (NoDup (map id (rows t)) ->
        StronglySorted (fun a b => id b < id a) listing)
    /\ Forall2 (fun r b => Utf8.encode (csv_line r) = Some b) listing row_bytes
    /\ CSV_HEADER_LINE
       = u "ID;Datum;Ime;Priimek;E-pošta;Razred;Oddelek;Predmeti (učitelj)"
         ++ [13; 10]%N
    /\ Utf8.encode CSV_HEADER_LINE
       = Some (bytes_of_string
                 "ID;Datum;Ime;Priimek;E-pošta;Razred;Oddelek;Predmeti (učitelj)"
               ++ [13; 10]%N)
    /\ fst (export_csv s env w)
       = Ok (SendFile
               ([0xEF; 0xBB; 0xBF]%N
                ++ (bytes_of_string
                      "ID;Datum;Ime;Priimek;E-pošta;Razred;Oddelek;Predmeti (učitelj)"
                    ++ [13; 10]%N)
                ++ List.concat row_bytes)
               "text/csv" true "instruktorji.csv").
Proof.
  intros Ha Hc He Hl Ht Htext.
  assert (Hlist : forallb row_text_ok (Sql.select_desc t) = true).
  { rewrite forallb_forall in *. intros r Hr. apply Htext.
    eapply Permutation_in; [apply select_desc_perm | exact Hr]. }
  destruct (encode_lines _ Hlist) as [row_bytes Hrows].
  exists (Sql.select_desc t), row_bytes.
  rewrite (all_vnosi_run env w t Hc He Hl Ht).
  split; [reflexivity|]. split; [apply select_desc_perm|].
  split; [apply select_desc_sorted|].
  split.
  { intros ND. apply sorted_strict; [apply select_desc_sorted|].
    eapply Permutation_NoDup; [|exact ND].
    apply Permutation_map, Permutation_sym, select_desc_perm. }
  split; [exact Hrows|].
  split; [reflexivity|]. split; [reflexivity|].
  unfold export_csv. rewrite Ha. cbn [negb]. cbv beta delta [bind].
  rewrite (all_vnosi_run env w t Hc He Hl Ht).
  rewrite export_buffer, writerow_header. unfold Utf8.encode_sig.
  rewrite (encode_app CSV_HEADER_LINE _ _ (List.concat row_bytes) eq_refl
             (encode_concat _ _ (forall2_map_l csv_line _ _ _ Hrows))).
  reflexivity.
Qed.

Lemma export_csv_bytes_witness :
  admin_ok session_admin = true
  /\ forallb row_text_ok [row_ana 1; row_ana 2] = true
  /\ exists listing row_bytes,
      fst (all_vnosi env_ok w_two_rows) = Ok listing
      /\ map id listing = [2; 1]
      /\ Forall2 (fun r b => Utf8.encode (csv_line r) = Some b) listing row_bytes
      /\ fst (export_csv session_admin env_ok w_two_rows)
         = Ok (SendFile
                 ([0xEF; 0xBB; 0xBF]%N
                  ++ (bytes_of_string
                        "ID;Datum;Ime;Priimek;E-pošta;Razred;Oddelek;Predmeti (učitelj)"
                      ++ [13; 10]%N)
                  ++ List.concat row_bytes)
                 "text/csv" true "instruktorji.csv").
Proof.
  split; [reflexivity|]. split; [reflexivity|].
  destruct (export_csv_bytes session_admin env_ok w_two_rows
              (mkTable [row_ana 1; row_ana 2] 2))
    as (listing & row_bytes & Hl & _ & _ & _ & Hrows & _ & _ & Hexp);
    [reflexivity | reflexivity | reflexivity | reflexivity | reflexivity
     | reflexivity |].
  exists listing, row_bytes. split; [exact Hl|].
  split; [|split; [exact Hrows | exact Hexp]].
  injection Hl as <-. reflexivity.
Defined.




(** C10. A subject is checked when the form holds, for its checkbox, the
    string "on" and nothing else. A form that differs from another one only
    by what it holds under the teacher names of subjects that are not checked
    is treated as that other one: same response, same flash, same record,
    same calls. *)
Theorem oddaj_unchecked_ignored (f f' : Form) env w :
  (forall k,
      (forall p, In p PREDMETI -> checked f p = false -> k <> teacher_key p) ->
      form_get f' k = form_get f k) ->
  (forall p, checked f p = true <-> form_get f (chk_key p) = Some (u "on"))
  /\ oddaj f' env w = oddaj f env w.
Proof.
  intros H. split.
  - intros p. unfold checked, is_on. destruct (form_get f (chk_key p)) as [v|].
    + rewrite eqb_eq. split; congruence.
    + split; discriminate.
  - apply oddaj_agree.
    + intros name Hn. unfold field, form_get_d. rewrite H; [reflexivity|].
      intros p _ _. now apply required_not_teacher.
    + intros p _. unfold checked, is_on. rewrite H; [reflexivity|].
      intros q _ _. apply chk_not_teacher.
    + intros p _ Hc. unfold teacher_of, form_get_d. rewrite H; [reflexivity|].
      intros q _ Hq E. rewrite (teacher_key_checked f p q E) in Hc. congruence.
Qed.

Lemma oddaj_unchecked_ignored_witness :
  form_get form_ana_extra (u "teacher_fiz") = Some (u "Horvat")
  /\ checked form_ana (u "fiz", u "Fizika") = false
  /\ oddaj form_ana_extra env_ok w_empty = oddaj form_ana env_ok w_empty.
Proof.
  split; [reflexivity|]. split; [reflexivity|].
  apply (oddaj_unchecked_ignored form_ana form_ana_extra env_ok w_empty).
  intros k Hk.
  assert (Hfiz : k <> teacher_key (u "fiz", u "Fizika"))
    by (apply Hk; [simpl; tauto | reflexivity]).
  assert (Hkem : k <> teacher_key (u "kem", u "Kemija"))
    by (apply Hk; [simpl; tauto | reflexivity]).
  unfold form_ana_extra. rewrite form_get_app.
  destruct (form_get form_ana k); [reflexivity|].
  cbn [form_get].
  destruct (Py.eqb (u "teacher_fiz") k) eqn:E1;
    [apply eqb_eq in E1; now elim Hfiz|].
  destruct (Py.eqb (u "teacher_kem") k) eqn:E2;
    [apply eqb_eq in E2; now elim Hkem|].
  reflexivity.
Defined.

(** A checkbox sent with "ON" is not checked: chemistry is left out, and its
    empty teacher name does not matter. *)
Example checked_exactly_on :
  checked form_ana_upper (u "kem", u "Kemija") = false
  /\ oddaj form_ana_upper env_ok w_empty = oddaj form_ana env_ok w_empty.
Proof. split; vm_compute; reflexivity. Qed.

(** * Further properties *)

(** ** The store, whatever fails *)

(** What [add_vnos] leaves in the table: what was there, or that and the one
    new record. *)
Lemma add_vnos_table i p e r o s env w :
  table (snd (add_vnos i p e r o s env w)) = table w
  \/ exists t,
      table w = Some t
      /\ commit_ok env = true
      /\ Sql.next_rowid t <= Sql.MAX_ROWID
      /\ table (snd (add_vnos i p e r o s env w))
         = Some (mkTable
                   (rows t ++ [mkRow (Sql.next_rowid t) (now_db env) i p e r o s])
                   (Sql.next_rowid t)).
Proof.
  run_store.
  destruct (connect_ok env); cbn; [|now left].
  destruct (execute_ok env); cbn; [|now left].
  destruct (table w) as [t|] eqn:Ht; cbn; [|now left].
  destruct (Sql.insert (now_db env) i p e r o s t) as [t'|] eqn:Hi; cbn;
    [|now left].
  destruct (commit_ok env); cbn; [|now left].
  right. exists t. unfold Sql.insert in Hi. cbv zeta in Hi.
  destruct (Z.leb_spec (Sql.next_rowid t) Sql.MAX_ROWID); [|discriminate].
  injection Hi as <-. repeat split; try assumption.
  destruct (close_ok env); reflexivity.
Qed.

Lemma delete_vnos_table row_id env w :
  table (snd (delete_vnos row_id env w)) = table w
  \/ exists t,
      table w = Some t
      /\ commit_ok env = true
      /\ table (snd (delete_vnos row_id env w)) = Some (Sql.delete row_id t).
Proof.
  run_store.
  destruct (connect_ok env); cbn; [|now left].
  destruct (execute_ok env); cbn; [|now left].
  destruct (table w) as [t|] eqn:Ht; cbn; [|now left].
  destruct (Sql.fits_int64 row_id); cbn; [|now left].
  destruct (commit_ok env); cbn; [|now left].
  right. exists t. repeat split.
  destruct (close_ok env); reflexivity.
Qed.

Lemma all_vnosi_table env w : table (snd (all_vnosi env w)) = table w.
Proof. run_store. split_store; reflexivity. Qed.

Lemma init_db_table env w t :
  table w = Some t -> table (snd (init_db env w)) = Some t.
Proof. intros Ht. run_store. split_store; cbn; congruence. Qed.

Lemma store_raise_table i p e r o s row_id env w :
  close_ok env = true ->
  (is_ok (fst (add_vnos i p e r o s env w)) = false ->
   table (snd (add_vnos i p e r o s env w)) = table w)
  /\ (is_ok (fst (delete_vnos row_id env w)) = false ->
      table (snd (delete_vnos row_id env w)) = table w).
Proof.
  intros Hl. run_store. rewrite Hl. split; split_store;
    first [reflexivity | discriminate].
Qed.

(** ** Listing, inserting, deleting *)

Lemma sort_desc_snoc (rs : list Row) (x : Row) :
  (forall r, In r rs -> id r < id x) ->
  sort_desc (rs ++ [x]) = x :: sort_desc rs.
Proof.
  unfold sort_desc. induction rs as [|r rs IH]; simpl; intros H; [reflexivity|].
  rewrite IH by (intros; apply H; now right). simpl.
  destruct (Z.leb_spec (id x) (id r)) as [Hle|_]; [|reflexivity].
  specialize (H r (or_introl eq_refl)). lia.
Qed.

Lemma sort_desc_sorted (rs : list Row) : StronglySorted id_desc (sort_desc rs).
Proof. exact (select_desc_sorted (mkTable rs 0)). Qed.

Lemma insert_desc_first (r : Row) (l : list Row) :
  Forall (id_desc r) l -> Sql.insert_desc r l = r :: l.
Proof.
  destruct l as [|x l]; simpl; [reflexivity|]. intros H.
  inversion H as [|? ? Hx _]; subst. unfold id_desc in Hx.
  destruct (Z.leb_spec (id x) (id r)); [reflexivity | lia].
Qed.

Lemma insert_desc_filter (P : Row -> bool) (r : Row) (l : list Row) :
  StronglySorted id_desc l ->
  filter P (Sql.insert_desc r l)
  = if P r then Sql.insert_desc r (filter P l) else filter P l.
Proof.
  induction 1 as [|x l Hs IH Hall]; simpl.
  - now destruct (P r).
  - destruct (Z.leb_spec (id x) (id r)) as [Hle|Hlt]; simpl.
    + destruct (P r); [|reflexivity].
      rewrite insert_desc_first; [reflexivity|].
      assert (Hr : Forall (id_desc r) (x :: l)).
      { constructor; [exact Hle|]. eapply Forall_impl; [|exact Hall].
        unfold id_desc. intros; lia. }
      change (Forall (id_desc r) (filter P (x :: l))).
      rewrite Forall_forall in *. intros y Hy. apply Hr.
      now apply filter_In in Hy.
    + rewrite IH. destruct (P x), (P r); simpl; try reflexivity.
      destruct (Z.leb_spec (id x) (id r)); [lia | reflexivity].
Qed.

Lemma sort_desc_filter (P : Row -> bool) (rs : list Row) :
  sort_desc (filter P rs) = filter P (sort_desc rs).
Proof.
  induction rs as [|r rs IH]; simpl; [reflexivity|].
  change (fold_right Sql.insert_desc [] rs) with (sort_desc rs).
  rewrite insert_desc_filter by apply sort_desc_sorted.
  destruct (P r); simpl; now rewrite IH.
Qed.

Lemma filter_fresh (rs : list Row) (x : Row) (n : Z) :
  id x = n ->
  (forall r, In r rs -> id r < n) ->
  filter (fun r => negb (id r =? n)) (rs ++ [x]) = rs.
Proof.
  intros Hx H. rewrite filter_app. simpl. rewrite Hx, Z.eqb_refl. simpl.
  rewrite app_nil_r. apply filter_id_absent.
  intros Hin. apply in_map_iff in Hin as (r & Hr & Hin).
  specialize (H r Hin). lia.
Qed.

Lemma store_ok_read env :
  store_ok env = true ->
  connect_ok env = true /\ execute_ok env = true /\ close_ok env = true.
Proof. intros H. apply store_ok_flags in H. tauto. Qed.

Lemma init_db_run env w :
  store_ok env = true ->
  init_db env w =
  (Ok Py.None_,
   after_store (Some (match table w with Some t => t | None => mkTable [] 0 end))
     [EvConnect (next_conn w); EvExecute (next_conn w) CreateTable;
      EvCommit (next_conn w); EvClose (next_conn w);
      EvLog INFO "DB ready at %s"] w).
Proof.
  intros H. store_flags H. run_store.
  repeat (progress (rewrite ?Hc, ?He, ?Hm, ?Hl, ?Nat.eqb_refl; cbn)).
  destruct (table w) as [t|] eqn:Ht; cbn;
    repeat (progress (rewrite ?Hc, ?He, ?Hm, ?Hl, ?Ht, ?Nat.eqb_refl; cbn));
    unfold after_store, record_event; cbn; rewrite ?Ht;
    repeat rewrite <- app_assoc; reflexivity.
Qed.

Lemma oddaj_table (f : Form) env w :
  table (snd (oddaj f env w)) = table w
  \/ exists t,
      table w = Some t
      /\ required_ok f = true
      /\ find (offending f) PREDMETI = None
      /\ Sql.next_rowid t <= Sql.MAX_ROWID
      /\ table (snd (oddaj f env w))
         = Some (mkTable
                   (rows t ++
                    [mkRow (Sql.next_rowid t) (now_db env) (field f "ime")
                           (field f "priimek") (field f "email")
                           (field f "razred") (field f "oddelek") (summary f)])
                   (Sql.next_rowid t)).
Proof.
  destruct (required_ok f) eqn:Hr;
    [|left; now rewrite (oddaj_required f env w Hr)].
  destruct (find (offending f) PREDMETI) as [p|] eqn:Hf;
    [left; now rewrite (oddaj_offending f p env w Hr Hf)|].
  rewrite (oddaj_valid f env w Hr Hf). cbv beta delta [bind].
  pose proof (add_vnos_table (field f "ime") (field f "priimek")
                (field f "email") (field f "razred") (field f "oddelek")
                (summary f) env w) as Ha.
  destruct (add_vnos (field f "ime") (field f "priimek") (field f "email")
              (field f "razred") (field f "oddelek") (summary f) env w)
    as [[v|x] w1]; cbn [snd] in *.
  - destruct (mirror_block_run (field f "ime") (field f "priimek")
                (field f "email") (field f "razred") (field f "oddelek")
                (summary f) env w1) as (wm & evs & Hm & (Hft & _) & _).
    rewrite Hm. cbn. rewrite Hft.
    destruct Ha as [Ha|(t & Ht & _ & Hroom & Ha)]; [now left|].
    right. exists t. auto.
  - destruct Ha as [Ha|(t & Ht & _ & Hroom & Ha)]; [now left|].
    right. exists t. auto.
Qed.

Lemma key_ok_insert (t : Table) (x : Row) (q : Z) :
  NoDup (map id (rows t)) ->
  (forall r, In r (rows t) -> id r < id x) ->
  NoDup (map id (rows (mkTable (rows t ++ [x]) q))).
Proof.
  intros ND H. cbn [rows]. rewrite map_app. cbn [map].
  apply Permutation_NoDup with (l := id x :: map id (rows t)).
  - apply Permutation_cons_append.
  - constructor; [|exact ND]. intros Hin.
    apply in_map_iff in Hin as (r & Hr & Hin). specialize (H r Hin). lia.
Qed.

(** X1. [init_db] can be run again and again: when no call to SQLite fails
    it returns normally, the table exists afterwards, with the records it had
    (none when it had to be created), and a second run changes nothing. *)
Theorem init_db_idempotent env env' w :
  store_ok env = true ->
  store_ok env' = true ->
  fst (init_db env w) = Ok Py.None_
  /\ table (snd (init_db env w))
     = Some (match table w with Some t => t | None => mkTable [] 0 end)
  /\ fst (init_db env' (snd (init_db env w))) = Ok Py.None_
  /\ table (snd (init_db env' (snd (init_db env w))))
     = table (snd (init_db env w)).
Proof.
  intros H H'. rewrite (init_db_run env w H). cbn [fst snd].
  rewrite (init_db_run env' _ H'). cbn. repeat split.
Qed.

Lemma init_db_idempotent_witness :
  store_ok env_ok = true
  /\ table (snd (init_db env_ok (snd (init_db env_ok w_two_rows))))
     = table w_two_rows.
Proof.
  split; [reflexivity|].
  destruct (init_db_idempotent env_ok env_ok w_two_rows eq_refl eq_refl)
    as (_ & H1 & _ & H2).
  now rewrite H2, H1.
Defined.

(** X2. Whatever fails, listing the records changes nothing in the table,
    and [init_db] leaves a table that exists as it is. *)
Theorem store_reads_keep_table env w :
  table (snd (all_vnosi env w)) = table w
  /\ (forall t, table w = Some t -> table (snd (init_db env w)) = Some t).
Proof. split; [apply all_vnosi_table | apply init_db_table]. Qed.

(** X3. [add_vnos] and [delete_vnos] are all or nothing, whatever fails: the
    table is left as it was, or (and then the commit went through) with
    exactly the one new record at the end, respectively without the records
    of the id. When they raise and it is not the closing of the connection
    that failed, the table is as it was. *)
Theorem store_all_or_nothing i p e r o s row_id env w :
  (table (snd (add_vnos i p e r o s env w)) = table w
   \/ exists t,
       table w = Some t
       /\ commit_ok env = true
       /\ table (snd (add_vnos i p e r o s env w))
          = Some (mkTable
                    (rows t ++
                     [mkRow (Sql.next_rowid t) (now_db env) i p e r o s])
                    (Sql.next_rowid t)))
  /\ (table (snd (delete_vnos row_id env w)) = table w
      \/ exists t,
          table w = Some t
          /\ commit_ok env = true
          /\ table (snd (delete_vnos row_id env w))
             = Some (Sql.delete row_id t))
  /\ (close_ok env = true ->
      (is_ok (fst (add_vnos i p e r o s env w)) = false ->
       table (snd (add_vnos i p e r o s env w)) = table w)
      /\ (is_ok (fst (delete_vnos row_id env w)) = false ->
          table (snd (delete_vnos row_id env w)) = table w)).
Proof.
  split; [|split].
  - destruct (add_vnos_table i p e r o s env w) as [H|(t & Ht & Hm & _ & H)];
      [now left | right; exists t; auto].
  - apply delete_vnos_table.
  - apply store_raise_table.
Qed.

Lemma store_all_or_nothing_witness :
  close_ok env_execute_fails = true
  /\ table (snd (add_vnos (u "Ana") (u "Novak") (u "a@x.si") (u "2. letnik")
                          (u "b") (u "—") env_execute_fails w_two_rows))
     = table w_two_rows.
Proof.
  split; [reflexivity|].
  destruct (store_all_or_nothing (u "Ana") (u "Novak") (u "a@x.si")
              (u "2. letnik") (u "b") (u "—") 1 env_execute_fails w_two_rows)
    as (_ & _ & H).
  destruct (H eq_refl) as [Ha _]. apply Ha. reflexivity.
Defined.

(** X4. The ids of the table stay all different through every operation of
    the store and through [oddaj], whatever the form holds and whatever
    fails. *)
Theorem store_keeps_key env w :
  key_ok w ->
  key_ok (snd (init_db env w))
  /\ (forall i p e r o s, key_ok (snd (add_vnos i p e r o s env w)))
  /\ key_ok (snd (all_vnosi env w))
  /\ (forall row_id, key_ok (snd (delete_vnos row_id env w)))
  /\ (forall f, key_ok (snd (oddaj f env w))).
Proof.
  unfold key_ok. intros Hk. split; [|split; [|split; [|split]]].
  - destruct (table w) as [t|] eqn:Ht.
    + now rewrite (init_db_table env w t Ht).
    + run_store. split_store; cbn; try congruence; try rewrite Ht;
        try exact I; constructor.
  - intros i p e r o s.
    destruct (add_vnos_table i p e r o s env w) as [->|(t & Ht & _ & _ & ->)];
      [exact Hk|].
    rewrite Ht in Hk. apply key_ok_insert; [exact Hk|].
    intros x. cbn [id]. apply next_rowid_fresh.
  - now rewrite all_vnosi_table.
  - intros row_id.
    destruct (delete_vnos_table row_id env w) as [->|(t & Ht & _ & ->)];
      [exact Hk|].
    rewrite Ht in Hk. now apply delete_keeps_key.
  - intros f.
    destruct (oddaj_table f env w) as [->|(t & Ht & _ & _ & _ & ->)];
      [exact Hk|].
    rewrite Ht in Hk. apply key_ok_insert; [exact Hk|].
    intros x. cbn [id]. apply next_rowid_fresh.
Qed.

Lemma store_keeps_key_witness :
  key_ok w_two_rows
  /\ key_ok (snd (oddaj form_ana env_ok w_two_rows)).
Proof.
  assert (H : key_ok w_two_rows).
  { unfold key_ok; cbn. repeat constructor; simpl; intuition discriminate. }
  split; [exact H|].
  destruct (store_keeps_key env_ok w_two_rows H) as (_ & _ & _ & _ & Ho).
  apply Ho.
Defined.

Lemma next_rowid_after (t : Table) (x : Row) :
  id x = Sql.next_rowid t ->
  Sql.next_rowid
    (Sql.delete (Sql.next_rowid t)
                (mkTable (rows t ++ [x]) (Sql.next_rowid t)))
  = Sql.next_rowid t + 1.
Proof.
  intros Hx. unfold Sql.delete. cbn [rows seq].
  rewrite (filter_fresh (rows t) x (Sql.next_rowid t) Hx)
    by (intros r Hr; now apply next_rowid_fresh).
  unfold Sql.next_rowid at 1. cbn [rows seq].
  unfold Sql.next_rowid. lia.
Qed.

Lemma max_id_nonneg (rs : list Row) : 0 <= Sql.max_id rs.
Proof. induction rs as [|r rs IH]; simpl; lia. Qed.

Lemma next_rowid_fits (t : Table) :
  Sql.next_rowid t <= Sql.MAX_ROWID -> Sql.fits_int64 (Sql.next_rowid t) = true.
Proof.
  intros H. unfold Sql.fits_int64. apply andb_true_iff. split.
  - apply Z.leb_le. pose proof (max_id_nonneg (rows t)).
    unfold Sql.next_rowid, Sql.MIN_ROWID. lia.
  - now apply Z.leb_le.
Qed.

(** X5. An id is not given twice: when a record is added, deleted again, and
    another record is added, the texts being such as can be bound, the table
    after the deletion holds the records of before, and the second record
    gets the id that follows the one of the first. *)
Theorem id_not_reused i p e r o s i' p' e' r' o' s' env1 env2 env3 w t :
  store_ok env1 = true -> store_ok env2 = true -> store_ok env3 = true ->
  table w = Some t ->
  Sql.next_rowid t + 1 <= Sql.MAX_ROWID ->
  bindable [now_db env1; i; p; e; r; o; s] = true ->
  bindable [now_db env3; i'; p'; e'; r'; o'; s'] = true ->
  let n := Sql.next_rowid t in
  let w1 := snd (add_vnos i p e r o s env1 w) in
  let w2 := snd (delete_vnos n env2 w1) in
  let w3 := snd (add_vnos i' p' e' r' o' s' env3 w2) in
  option_map rows (table w1) = Some (rows t ++ [mkRow n (now_db env1) i p e r o s])
  /\ option_map rows (table w2) = Some (rows t)
  /\ option_map rows (table w3)
     = Some (rows t ++ [mkRow (n + 1) (now_db env3) i' p' e' r' o' s']).
Proof.
  intros H1 H2 H3 Ht Hroom _ _ n w1 w2 w3.
  assert (Hn : n <= Sql.MAX_ROWID) by (unfold n; lia).
  assert (E1 : table w1
               = Some (mkTable (rows t ++ [mkRow n (now_db env1) i p e r o s]) n)).
  { unfold w1. rewrite (add_vnos_run i p e r o s env1 w t _ H1 Ht
                          (insert_some _ _ _ _ _ _ _ _ Hn)). reflexivity. }
  assert (E2 : table w2
               = Some (Sql.delete n
                         (mkTable (rows t ++ [mkRow n (now_db env1) i p e r o s]) n))).
  { unfold w2.
    rewrite (delete_vnos_run n env2 w1 _ H2 E1 (next_rowid_fits t Hn)).
    reflexivity. }
  pose proof (next_rowid_after t (mkRow n (now_db env1) i p e r o s) eq_refl)
    as Hnext. fold n in Hnext.
  split; [now rewrite E1|]. split.
  - rewrite E2. cbn [option_map Sql.delete rows].
    now rewrite (filter_fresh (rows t) (mkRow n (now_db env1) i p e r o s) n
                   eq_refl)
      by (intros x Hx; now apply next_rowid_fresh).
  - unfold w3.
    rewrite (add_vnos_run i' p' e' r' o' s' env3 w2 _ _ H3 E2
               (insert_some _ _ _ _ _ _ _ _ ltac:(rewrite Hnext; lia))).
    cbn [snd after_store table option_map rows]. rewrite Hnext.
    cbn [Sql.delete rows].
    now rewrite (filter_fresh (rows t) (mkRow n (now_db env1) i p e r o s) n
                   eq_refl)
      by (intros x Hx; now apply next_rowid_fresh).
Qed.

Lemma id_not_reused_witness :
  store_ok env_ok = true
  /\ bindable [now_db env_ok; u "Ana"; u "Novak"; u "a@x.si"; u "2. letnik";
               u "b"; u "—"] = true
  /\ option_map (fun t => map id (rows t))
       (table (snd (add_vnos (u "Eva") (u "Kos") (u "e@x.si") (u "1. letnik")
                             (u "a") (u "—") env_ok
                       (snd (delete_vnos 3 env_ok
                          (snd (add_vnos (u "Ana") (u "Novak") (u "a@x.si")
                                         (u "2. letnik") (u "b") (u "—")
                                         env_ok w_two_rows)))))))
     = Some [1; 2; 4].
Proof.
  split; [reflexivity|]. split; [reflexivity|].
  destruct (id_not_reused (u "Ana") (u "Novak") (u "a@x.si") (u "2. letnik")
              (u "b") (u "—") (u "Eva") (u "Kos") (u "e@x.si") (u "1. letnik")
              (u "a") (u "—") env_ok env_ok env_ok w_two_rows
              (mkTable [row_ana 1; row_ana 2] 2)
              eq_refl eq_refl eq_refl eq_refl ltac:(vm_compute; discriminate)
              eq_refl eq_refl)
    as (_ & _ & H3).
  change (Sql.next_rowid (mkTable [row_ana 1; row_ana 2] 2)) with 3 in H3.
  destruct (table _) as [t3|]; [|discriminate].
  cbn [option_map] in *. injection H3 as ->. reflexivity.
Defined.

(** X6. When the texts of the record can be bound, the record just added
    is the first of the listing, before the records that were listed until
    then, in their order. *)
Theorem add_vnos_listed_first i p e r o s env env' w t :
  store_ok env = true -> store_ok env' = true ->
  table w = Some t ->
  Sql.next_rowid t <= Sql.MAX_ROWID ->
  bindable [now_db env; i; p; e; r; o; s] = true ->
  fst (all_vnosi env' w) = Ok (Sql.select_desc t)
  /\ fst (all_vnosi env' (snd (add_vnos i p e r o s env w)))
     = Ok (mkRow (Sql.next_rowid t) (now_db env) i p e r o s
           :: Sql.select_desc t).
Proof.
  intros H H' Ht Hroom _.
  destruct (store_ok_read env' H') as (Hc & He & Hl).
  rewrite (all_vnosi_run env' w t Hc He Hl Ht).
  rewrite (add_vnos_run i p e r o s env w t _ H Ht
             (insert_some _ _ _ _ _ _ _ _ Hroom)).
  split; [reflexivity|]. cbn [snd].
  erewrite all_vnosi_run; [|exact Hc|exact He|exact Hl|reflexivity].
  cbn [fst]. unfold Sql.select_desc. cbn [rows].
  apply f_equal.
  apply (sort_desc_snoc (rows t)
           (mkRow (Sql.next_rowid t) (now_db env) i p e r o s)).
  intros x. cbn [id]. apply next_rowid_fresh.
Qed.

Lemma add_vnos_listed_first_witness :
  store_ok env_ok = true
  /\ bindable [now_db env_ok; u "Eva"; u "Kos"; u "e@x.si"; u "1. letnik";
               u "a"; u "—"] = true
  /\ option_map (map id)
       (match fst (all_vnosi env_ok
                     (snd (add_vnos (u "Eva") (u "Kos") (u "e@x.si")
                                    (u "1. letnik") (u "a") (u "—") env_ok
                                    w_two_rows))) with
        | Ok l => Some l
        | Raise _ => None
        end)
     = Some [3; 2; 1].
Proof.
  split; [reflexivity|]. split; [reflexivity|].
  destruct (add_vnos_listed_first (u "Eva") (u "Kos") (u "e@x.si")
              (u "1. letnik") (u "a") (u "—") env_ok env_ok w_two_rows
              (mkTable [row_ana 1; row_ana 2] 2)
              eq_refl eq_refl eq_refl ltac:(vm_compute; discriminate) eq_refl)
    as (_ & H).
  rewrite H. reflexivity.
Defined.

(** X7. For an id in the signed 64-bit range, after [delete_vnos] the
    listing is the listing of before without the records of that id, the
    others in the order they had; deleting the same id once more changes
    nothing. *)
Theorem delete_vnos_listing (row_id : Z) env env' env'' w t :
  store_ok env = true -> store_ok env' = true -> store_ok env'' = true ->
  table w = Some t ->
  Sql.fits_int64 row_id = true ->
  fst (all_vnosi env' (snd (delete_vnos row_id env w)))
  = Ok (filter (fun r => negb (id r =? row_id)) (Sql.select_desc t))
  /\ table (snd (delete_vnos row_id env'' (snd (delete_vnos row_id env w))))
     = table (snd (delete_vnos row_id env w)).
Proof.
  intros H H' H'' Ht Hfit.
  destruct (store_ok_read env' H') as (Hc & He & Hl).
  rewrite (delete_vnos_run row_id env w t H Ht Hfit). cbn [snd]. split.
  - erewrite all_vnosi_run; [|exact Hc|exact He|exact Hl|reflexivity].
    cbn [fst]. apply f_equal. unfold Sql.select_desc, Sql.delete. cbn [rows].
    apply (sort_desc_filter (fun r => negb (id r =? row_id)) (rows t)).
  - erewrite delete_vnos_run; [|exact H''|reflexivity|exact Hfit].
    cbn [snd after_store table]. apply f_equal.
    unfold Sql.delete. cbn [rows seq]. apply f_equal2; [|reflexivity].
    induction (rows t) as [|x l IH]; simpl; [reflexivity|].
    destruct (negb (id x =? row_id)) eqn:E; simpl; rewrite ?E, IH; reflexivity.
Qed.

Lemma delete_vnos_listing_witness :
  store_ok env_ok = true
  /\ table w_two_rows = Some (mkTable [row_ana 1; row_ana 2] 2)
  /\ Sql.fits_int64 2 = true
  /\ fst (all_vnosi env_ok (snd (delete_vnos 2 env_ok w_two_rows)))
     = Ok [row_ana 1].
Proof.
  split; [reflexivity|]. split; [reflexivity|]. split; [reflexivity|].
  destruct (delete_vnos_listing 2 env_ok env_ok env_ok w_two_rows
              (mkTable [row_ana 1; row_ana 2] 2)
              eq_refl eq_refl eq_refl eq_refl eq_refl) as (H & _).
  rewrite H. reflexivity.
Defined.

(** X8. Before the table is created every operation on the records raises,
    a valid submission included, and the table stays absent; once [init_db]
    has run the listing is empty. *)
Theorem store_before_init i p e r o s row_id (f : Form) env w :
  table w = None ->
  store_ok env = true ->
  fst (add_vnos i p e r o s env w) = Raise SqliteError
  /\ fst (all_vnosi env w) = Raise SqliteError
  /\ fst (delete_vnos row_id env w) = Raise SqliteError
  /\ table (snd (add_vnos i p e r o s env w)) = None
  /\ (required_ok f = true -> find (offending f) PREDMETI = None ->
      fst (oddaj f env w) = Raise SqliteError)
  /\ fst (all_vnosi env (snd (init_db env w))) = Ok [].
Proof.
  intros Ht H. pose proof H as H0. store_flags H.
  assert (Ha : forall i p e r o s,
             fst (add_vnos i p e r o s env w) = Raise SqliteError
             /\ table (snd (add_vnos i p e r o s env w)) = None).
  { intros. run_store.
    repeat (progress (rewrite ?Hc, ?He, ?Hm, ?Hl, ?Ht; cbn)).
    split; [reflexivity | assumption || reflexivity]. }
  split; [apply Ha|].
  split; [run_store; repeat (progress (rewrite ?Hc, ?He, ?Hm, ?Hl, ?Ht; cbn));
          reflexivity|].
  split; [run_store; repeat (progress (rewrite ?Hc, ?He, ?Hm, ?Hl, ?Ht; cbn));
          reflexivity|].
  split; [apply Ha|]. split.
  - intros Hr Hf. rewrite (oddaj_valid f env w Hr Hf). cbv beta delta [bind].
    destruct (Ha (field f "ime") (field f "priimek") (field f "email")
                 (field f "razred") (field f "oddelek") (summary f)) as [Hx _].
    destruct (add_vnos _ _ _ _ _ _ env w) as [[v|x] w1]; cbn in *;
      congruence.
  - rewrite (init_db_run env w H0). cbn [snd].
    erewrite all_vnosi_run; [|exact Hc|exact He|exact Hl|cbn; now rewrite Ht].
    reflexivity.
Qed.

Lemma store_before_init_witness :
  table (mkWorld None [] 0%nat false false None []) = None
  /\ store_ok env_ok = true
  /\ fst (oddaj form_ana env_ok (mkWorld None [] 0%nat false false None []))
     = Raise SqliteError.
Proof.
  split; [reflexivity|]. split; [reflexivity|].
  destruct (store_before_init [] [] [] [] [] [] 0 form_ana env_ok
              (mkWorld None [] 0%nat false false None []) eq_refl eq_refl)
    as (_ & _ & _ & _ & H & _).
  apply H; reflexivity.
Defined.

(** ** The administrator's session *)

Lemma session_after_app (a b : list SessionStep) s env w :
  session_after (a ++ b) s env w
  = session_after b (fst (session_after a s env w)) env
                  (snd (session_after a s env w)).
Proof.
  revert s w. induction a as [|[f|] a IH]; intros s w; simpl.
  - reflexivity.
  - destruct (admin_do_login f s env w) as [r w']. apply IH.
  - apply IH.
Qed.

Lemma password_ok_exact (f : Form) :
  password_ok f = true <-> form_get f (u "password") = Some ADMIN_PASS.
Proof.
  unfold password_ok. destruct (form_get f (u "password")) as [v|].
  - rewrite eqb_eq. split; congruence.
  - split; discriminate.
Qed.

Lemma login_step (f : Form) s env w :
  admin_ok (session_of (fst (admin_do_login f s env w)) s)
  = password_ok f || admin_ok s.
Proof.
  unfold admin_do_login. destruct (password_ok f); reflexivity.
Qed.

(** The session is the administrator's after the steps exactly when it was
    at the start and no step logs out, or some login had the password and no
    step after it logs out. *)
Lemma session_after_admin (steps : list SessionStep) s env w :
  admin_ok (fst (session_after steps s env w)) = true
  <-> (admin_ok s = true /\ forallb (fun a => negb (is_logout a)) steps = true)
      \/ exists pre f post,
          steps = pre ++ Login f :: post
          /\ password_ok f = true
          /\ forallb (fun a => negb (is_logout a)) post = true.
Proof.
  revert s w. induction steps as [|a steps IH]; intros s w.
  - simpl. split.
    + intros H. left. auto.
    + intros [[H _]|(pre & f & post & E & _)]; [exact H|].
      destruct pre; discriminate.
  - destruct a as [f|].
    + cbn [session_after].
      pose proof (login_step f s env w) as Hstep.
      destruct (admin_do_login f s env w) as [r w']. cbn [fst] in Hstep.
      rewrite IH. rewrite Hstep. split.
      * intros [[Hs Hno]|(pre & g & post & E & Hg & Hno)].
        -- apply orb_true_iff in Hs as [Hp|Hs].
           ++ right. exists [], f, steps. auto.
           ++ left. auto.
        -- right. exists (Login f :: pre), g, post. rewrite E. auto.
      * intros [[Hs Hno]|(pre & g & post & E & Hg & Hno)].
        -- left. cbn in Hno. rewrite Hs, orb_true_r. auto.
        -- destruct pre as [|a pre]; cbn in E; injection E as E1 E2.
           ++ subst. left. rewrite Hg. auto.
           ++ subst. right. exists pre, g, post. auto.
    + cbn [session_after admin_logout ret session_of]. rewrite IH. cbn. split.
      * intros [[Hs _]|(pre & g & post & E & Hg & Hno)]; [discriminate|].
        right. exists (Logout :: pre), g, post. rewrite E. auto.
      * intros [[_ Hno]|(pre & g & post & E & Hg & Hno)]; [discriminate|].
        destruct pre as [|a pre]; cbn in E; [discriminate|].
        injection E as _ E. right. exists pre, g, post. auto.
Qed.

Lemma session_after_table (steps : list SessionStep) s env w :
  table (snd (session_after steps s env w)) = table w
  /\ sheet (snd (session_after steps s env w)) = sheet w
  /\ open_conns (snd (session_after steps s env w)) = open_conns w.
Proof.
  revert s w. induction steps as [|[f|] steps IH]; intros s w;
    cbn [session_after]; [auto| |apply IH].
  unfold admin_do_login. destruct (password_ok f).
  - apply IH.
  - cbn. destruct (IH s (record_event (EvFlash MSG_WRONG_PASSWORD (u "error")) w))
      as (H1 & H2 & H3). auto.
Qed.

(** X9. The listing, the deletion and the export are closed to a session
    that does not hold True under "admin_ok" (a session that holds the number
    1 or a string there included): the answer is the redirect to the login
    page, and nothing is done, no call to SQLite and no event. *)
Theorem admin_gate_closed (s : Session) (row_id : Z) env w :
  s <> Some (Py.Bool true) ->
  admin_panel s env w = (Ok (Respond (Redirect "admin_login")), w)
  /\ admin_delete row_id s env w = (Ok (Respond (Redirect "admin_login")), w)
  /\ export_csv s env w = (Ok (Redirect "admin_login"), w)
  /\ admin_login s env w = (Ok RenderLogin, w).
Proof.
  intros H.
  assert (Ha : admin_ok s = false).
  { destruct s as [[| [|] | |]|]; try reflexivity. now elim H. }
  unfold admin_panel, admin_delete, export_csv, admin_login. rewrite Ha.
  repeat split.
Qed.

Lemma admin_gate_closed_witness :
  Some (Py.Int 1) <> Some (Py.Bool true)
  /\ snd (admin_delete 1 (Some (Py.Int 1)) env_ok w_two_rows) = w_two_rows.
Proof.
  split; [discriminate|].
  destruct (admin_gate_closed (Some (Py.Int 1)) 1 env_ok w_two_rows
              ltac:(discriminate)) as (_ & H & _).
  now rewrite H.
Defined.

(** X10. From a fresh session, whatever logins and logouts follow, the
    session is the administrator's exactly when some login sent, under
    "password", the very string ADMIN_PASS and no logout came after it. The
    steps leave the table, the worksheet and the connections alone. *)
Theorem admin_session_machine (steps : list SessionStep) env w :
  (admin_ok (fst (session_after steps None env w)) = true
   <-> exists pre f post,
       steps = pre ++ Login f :: post
       /\ form_get f (u "password") = Some ADMIN_PASS
       /\ forallb (fun a => negb (is_logout a)) post = true)
  /\ table (snd (session_after steps None env w)) = table w
  /\ sheet (snd (session_after steps None env w)) = sheet w
  /\ open_conns (snd (session_after steps None env w)) = open_conns w.
Proof.
  split; [|apply session_after_table].
  rewrite session_after_admin. split.
  - intros [[H _]|(pre & f & post & E & Hp & Hno)]; [discriminate|].
    exists pre, f, post. rewrite <- password_ok_exact. auto.
  - intros (pre & f & post & E & Hp & Hno). right.
    exists pre, f, post. rewrite password_ok_exact. auto.
Qed.

(** X11. A login with another password, or with none, leaves the session as
    it was, flashes the one message about the password and redirects to the
    login page; the right password makes the session the administrator's
    and redirects to the listing, without a flash. Upper case, or a space
    around the password, is another password. *)
Theorem admin_do_login_outcome (f : Form) (s : Session) env w :
  (form_get f (u "password") = Some ADMIN_PASS ->
   admin_do_login f s env w
   = (Ok (Respond (Redirect "admin_panel"), Some (Py.Bool true)), w))
  /\ (form_get f (u "password") <> Some ADMIN_PASS ->
      admin_do_login f s env w
      = (Ok (Respond (Redirect "admin_login"), s),
         record_event (EvFlash MSG_WRONG_PASSWORD (u "error")) w)).
Proof.
  unfold admin_do_login. split; intros H.
  - apply password_ok_exact in H. now rewrite H.
  - destruct (password_ok f) eqn:E; [|reflexivity].
    apply password_ok_exact in E. now elim H.
Qed.

Lemma admin_do_login_outcome_witness :
  form_get [(u "password", u " instruktorji2025")] (u "password")
  <> Some ADMIN_PASS
  /\ fst (admin_do_login [(u "password", u " instruktorji2025")] None
                         env_ok w_empty)
     = Ok (Respond (Redirect "admin_login"), None).
Proof.
  split; [discriminate|].
  destruct (admin_do_login_outcome [(u "password", u " instruktorji2025")]
              None env_ok w_empty) as (_ & H).
  rewrite H; [reflexivity | discriminate].
Defined.

(** X12. For the administrator, when no call to SQLite fails and the id is in
    the signed 64-bit range, the deletion redirects to the listing, and the
    listing then shows the records it showed before without those of the id,
    in the same order. *)
Theorem admin_delete_then_panel (row_id : Z) (s : Session) env env' w t :
  admin_ok s = true ->
  store_ok env = true -> store_ok env' = true ->
  table w = Some t ->
  Sql.fits_int64 row_id = true ->
  fst (admin_panel s env' w) = Ok (RenderAdmin (Sql.select_desc t))
  /\ fst (admin_delete row_id s env w) = Ok (Respond (Redirect "admin_panel"))
  /\ fst (admin_panel s env' (snd (admin_delete row_id s env w)))
     = Ok (RenderAdmin
             (filter (fun r => negb (id r =? row_id)) (Sql.select_desc t))).
Proof.
  intros Ha H H' Ht Hfit.
  destruct (store_ok_read env' H') as (Hc & He & Hl).
  unfold admin_panel, admin_delete. rewrite Ha. cbn [negb].
  cbv beta delta [bind].
  rewrite (all_vnosi_run env' w t Hc He Hl Ht).
  rewrite (delete_vnos_run row_id env w t H Ht Hfit).
  split; [reflexivity|]. split; [reflexivity|]. unfold ret at 1. cbn [snd].
  match goal with
  | |- context [all_vnosi env' ?w1] =>
    rewrite (all_vnosi_run env' w1 (Sql.delete row_id t) Hc He Hl eq_refl)
  end.
  cbn [fst ret]. do 2 apply f_equal. unfold Sql.select_desc, Sql.delete. cbn [rows].
  apply (sort_desc_filter (fun r => negb (id r =? row_id)) (rows t)).
Qed.

Lemma admin_delete_then_panel_witness :
  admin_ok session_admin = true
  /\ store_ok env_ok = true
  /\ Sql.fits_int64 2 = true
  /\ fst (admin_panel session_admin env_ok
            (snd (admin_delete 2 session_admin env_ok w_two_rows)))
     = Ok (RenderAdmin [row_ana 1]).
Proof.
  split; [reflexivity|]. split; [reflexivity|]. split; [reflexivity|].
  destruct (admin_delete_then_panel 2 session_admin env_ok env_ok w_two_rows
              (mkTable [row_ana 1; row_ana 2] 2)
              eq_refl eq_refl eq_refl eq_refl eq_refl) as (_ & _ & H).
  rewrite H. reflexivity.
Defined.

(** ** The connection to the spreadsheet *)

Ltac run_conn :=
  unfold _get_spreadsheet, _build_creds, load_credentials,
         gspread.authorize, gspread.open_by_key, gspread.call, try_except,
         set_gs_client, set_gs_spread, log, emit, modify, gets, ask, raise,
         bind, ret;
  cbn.

Lemma build_creds_run env w :
  _build_creds env w =
  if creds_found env then
    (if creds_ok env then Ok tt else Raise SheetsError,
     record_event
       (EvLog INFO
          (if secret_isfile env
           then "Using service account from Secret File: %s"
           else if local_isfile env
                then "Using service account from local file: %s"
                else "Using service account from ENV SERVICE_ACCOUNT_JSON")) w)
  else (Raise RuntimeError, w).
Proof.
  unfold creds_found. run_conn.
  destruct (secret_isfile env), (local_isfile env), (env_json env),
    (creds_ok env); reflexivity.
Qed.

Lemma get_spreadsheet_run env w :
  fst (_get_spreadsheet env w)
  = Ok (if connects env w then Some TheSpreadsheet else None)
  /\ gs_spread (snd (_get_spreadsheet env w)) = connects env w
  /\ (gs_spread w = true -> snd (_get_spreadsheet env w) = w)
  /\ (connects env w = false ->
      last (trace (snd (_get_spreadsheet env w))) (EvCommit 0)
      = EvLog ERROR "Ne morem se povezati na Google Sheet: %s").
Proof.
  unfold connects, creds_found. run_conn.
  destruct (gs_spread w) eqn:Hg; cbn.
  - repeat split; auto. discriminate.
  - destruct (secret_isfile env), (local_isfile env), (env_json env),
      (creds_ok env), (authorize_ok env), (open_ok env); cbn;
      repeat split; auto; try discriminate; intros _; apply last_last.
Qed.

Lemma sheet_calls_flags env :
  sheet_calls_ok env = true ->
  worksheet_ok env = true /\ add_worksheet_ok env = true
  /\ get_values_ok env = true /\ header_append_ok env = true.
Proof.
  unfold sheet_calls_ok. intros H.
  repeat (apply andb_true_iff in H as [H ?]). auto.
Qed.

(** [_ensure_ws] once the spreadsheet is at hand. *)
Lemma ensure_ws_connected title headers env w :
  connects env w = true ->
  exists w0,
    sheet w0 = sheet w
    /\ _ensure_ws title headers env w
       = (r <- try_except
                 (ws <- gspread.worksheet TheSpreadsheet title ;; ret (inl ws))
                 (fun e =>
                    match e with
                    | WorksheetNotFound =>
                      ws <- gspread.add_worksheet TheSpreadsheet title 1000
                              (Z.max 10 (Z.of_nat (List.length headers))) ;;
                      gspread.append_row ws header_append_ok headers ;;
                      ret (inr (Some ws))
                    | _ => raise e
                    end) ;;
          match r with
          | inr v => ret v
          | inl ws =>
            try_except
              (vals <- gspread.get_all_values ws ;;
               match vals with
               | [] => gspread.append_row ws header_append_ok headers
               | _ :: _ => ret tt
               end)
              (fun _ => ret tt) ;;
            ret (Some ws)
          end) env w0.
Proof.
  intros Hc.
  destruct (get_spreadsheet_run env w) as (Hr & _).
  pose proof (get_spreadsheet_same_sheet env w) as Hs. unfold same_sheet in Hs.
  rewrite Hc in Hr.
  unfold _ensure_ws. unfold bind at 1.
  destruct (_get_spreadsheet env w) as [r w0]. cbn [fst snd] in *.
  exists w0. split; [exact Hs|]. rewrite Hr. reflexivity.
Qed.

Lemma ensure_ws_run title headers env w :
  connects env w = true ->
  sheet_calls_ok env = true ->
  fst (_ensure_ws title headers env w) = Ok (Some TheWorksheet)
  /\ sheet (snd (_ensure_ws title headers env w))
     = Some (with_header headers (sheet w)).
Proof.
  intros Hc Hk.
  destruct (ensure_ws_connected title headers env w Hc) as (w0 & Hs & ->).
  destruct (sheet_calls_flags env Hk) as (Hw & Ha & Hg & Hh).
  rewrite <- Hs. run_sheets.
  repeat (progress (rewrite ?Hw, ?Ha, ?Hg, ?Hh; cbn -[app last])).
  destruct (sheet w0) as [[|x c]|] eqn:E; cbn -[app last];
    repeat (progress (rewrite ?Hw, ?Ha, ?Hg, ?Hh, ?E; cbn -[app last]));
    split; reflexivity.
Qed.

Lemma ensure_ws_nonempty title headers env w x c :
  sheet w = Some (x :: c) ->
  sheet (snd (_ensure_ws title headers env w)) = Some (x :: c).
Proof.
  intros Hsh.
  destruct (connects env w) eqn:Hc.
  - destruct (ensure_ws_connected title headers env w Hc) as (w0 & Hs & ->).
    rewrite <- Hs in Hsh. run_sheets.
    destruct (worksheet_ok env); cbn -[app last]; [|exact Hsh].
    rewrite Hsh. cbn -[app last].
    destruct (get_values_ok env); cbn -[app last]; [|exact Hsh].
    rewrite Hsh. cbn -[app last]. exact Hsh.
  - destruct (get_spreadsheet_run env w) as (Hr & _).
    pose proof (get_spreadsheet_same_sheet env w) as Hs. unfold same_sheet in Hs.
    rewrite Hc in Hr.
    unfold _ensure_ws. unfold bind at 1.
    destruct (_get_spreadsheet env w) as [r w0]. cbn [fst snd] in *.
    rewrite Hr. cbn. congruence.
Qed.

Lemma mirror_block_sheet i p e r o s env w :
  connects env w = true ->
  sheet_calls_ok env = true ->
  row_append_ok env = true ->
  sheet (snd (mirror_block i p e r o s env w))
  = Some (with_header HEADERS (sheet w) ++ [[now_sheet env; i; p; e; r; o; s]]).
Proof.
  intros Hc Hk Hrow.
  destruct (ensure_ws_run WS_TITLE HEADERS env w Hc Hk) as (Hr & Hs).
  unfold mirror_block, try_except. unfold bind at 1.
  destruct (_ensure_ws WS_TITLE HEADERS env w) as [r1 w1]. cbn [fst snd] in *.
  rewrite Hr. run_sheets. rewrite Hrow. cbn -[app last HEADERS].
  rewrite Hs. reflexivity.
Qed.

Lemma get_spreadsheet_client env w :
  gs_client (snd (_get_spreadsheet env w))
  = gs_client w
    || (negb (gs_spread w) && creds_found env && creds_ok env
        && authorize_ok env).
Proof.
  unfold creds_found. run_conn.
  destruct (gs_spread w); cbn.
  - now rewrite orb_false_r.
  - destruct (secret_isfile env), (local_isfile env), (env_json env),
      (creds_ok env), (authorize_ok env), (open_ok env); cbn;
      rewrite ?orb_false_r, ?orb_true_r; reflexivity.
Qed.

(** X13. [_get_spreadsheet] never raises. It answers with the spreadsheet
    when it is cached or when a service account is found and loaded and the
    service lets it in; [_gs_spread] is then set, and from then on it answers
    from the cache, without a log entry or a call, whatever the outside does.
    Otherwise it answers None after logging the error and leaves [_gs_spread]
    unset, so that the next call tries again from the start. [_gs_client] is
    set as soon as the service has authorized the account, also when opening
    the spreadsheet fails afterwards, and is never unset. *)
Theorem get_spreadsheet_cache env env' w :
  fst (_get_spreadsheet env w)
  = Ok (if connects env w then Some TheSpreadsheet else None)
  /\ gs_spread (snd (_get_spreadsheet env w)) = connects env w
  /\ gs_client (snd (_get_spreadsheet env w))
     = gs_client w
       || (negb (gs_spread w) && creds_found env && creds_ok env
           && authorize_ok env)
  /\ (connects env w = true ->
      _get_spreadsheet env' (snd (_get_spreadsheet env w))
      = (Ok (Some TheSpreadsheet), snd (_get_spreadsheet env w)))
  /\ (connects env w = false ->
      last (trace (snd (_get_spreadsheet env w))) (EvCommit 0)
      = EvLog ERROR "Ne morem se povezati na Google Sheet: %s"
      /\ fst (_get_spreadsheet env' (snd (_get_spreadsheet env w)))
         = Ok (if creds_found env' && creds_ok env' && authorize_ok env'
                  && open_ok env'
               then Some TheSpreadsheet else None)).
Proof.
  destruct (get_spreadsheet_run env w) as (Hr & Hg & _ & Hlog).
  destruct (get_spreadsheet_run env' (snd (_get_spreadsheet env w)))
    as (Hr' & _ & Hsame & _).
  split; [exact Hr|]. split; [exact Hg|].
  split; [apply get_spreadsheet_client|]. split.
  - intros Hc. rewrite Hc in Hg. specialize (Hsame Hg).
    unfold connects in Hr'. rewrite Hg in Hr'. cbn [orb] in Hr'.
    destruct (_get_spreadsheet env' (snd (_get_spreadsheet env w))) as [r2 w2].
    cbn [fst snd] in *. now rewrite Hr', Hsame.
  - intros Hc. split; [now apply Hlog|].
    rewrite Hc in Hg. unfold connects in Hr'. rewrite Hg in Hr'.
    exact Hr'.
Qed.

Lemma get_spreadsheet_cache_witness :
  connects env_ok w_empty = true
  /\ trace (snd (_get_spreadsheet env_execute_fails
                   (snd (_get_spreadsheet env_ok w_empty))))
     = trace (snd (_get_spreadsheet env_ok w_empty)).
Proof.
  split; [reflexivity|].
  destruct (get_spreadsheet_cache env_ok env_execute_fails w_empty)
    as (_ & _ & _ & H & _).
  now rewrite (H eq_refl).
Defined.

(** X14. [_build_creds] takes the first place where a service account is
    found, the secret file before the local file before the environment, and
    says which in the log; when that one cannot be loaded it raises, without
    trying the places that come after; when there is none it raises
    RuntimeError and logs nothing. *)
Theorem build_creds_priority env w :
  (fst (_build_creds env w) = Raise RuntimeError <-> creds_found env = false)
  /\ (creds_found env = false -> snd (_build_creds env w) = w)
  /\ (creds_found env = true ->
      fst (_build_creds env w)
      = (if creds_ok env then Ok tt else Raise SheetsError)
      /\ snd (_build_creds env w)
         = record_event
             (EvLog INFO
                (if secret_isfile env
                 then "Using service account from Secret File: %s"
                 else if local_isfile env
                      then "Using service account from local file: %s"
                      else "Using service account from ENV SERVICE_ACCOUNT_JSON"))
             w).
Proof.
  rewrite build_creds_run. destruct (creds_found env); cbn.
  - split; [|split; [discriminate | auto]].
    split; [|discriminate]. destruct (creds_ok env); discriminate.
  - split; [tauto|]. split; [auto | discriminate].
Qed.

Lemma build_creds_priority_witness :
  creds_found env_ok = true
  /\ trace (snd (_build_creds env_ok w_empty))
     = [EvLog INFO "Using service account from Secret File: %s"].
Proof.
  split; [reflexivity|].
  destruct (build_creds_priority env_ok w_empty) as (_ & _ & H).
  destruct (H eq_refl) as [_ ->]. reflexivity.
Defined.

(** X15. With the spreadsheet at hand and no failing call, [_ensure_ws]
    answers with the worksheet, which then exists and is not empty: created
    with the header as its only row, or given the header when it had no row,
    or left as it was. A worksheet that has rows is never changed by
    [_ensure_ws], whatever fails; so a second run changes nothing. *)
Theorem ensure_ws_header title headers env env' w :
  (connects env w = true ->
   sheet_calls_ok env = true ->
   fst (_ensure_ws title headers env w) = Ok (Some TheWorksheet)
   /\ sheet (snd (_ensure_ws title headers env w))
      = Some (match sheet w with
              | None | Some [] => [headers]
              | Some content => content
              end)
   /\ sheet (snd (_ensure_ws title headers env'
                    (snd (_ensure_ws title headers env w))))
      = sheet (snd (_ensure_ws title headers env w)))
  /\ (forall x c,
         sheet w = Some (x :: c) ->
         sheet (snd (_ensure_ws title headers env w)) = Some (x :: c)).
Proof.
  split.
  - intros Hc Hk.
    destruct (ensure_ws_run title headers env w Hc Hk) as (Hr & Hs).
    split; [exact Hr|]. split; [exact Hs|].
    rewrite Hs. unfold with_header.
    destruct (sheet w) as [[|x c]|]; now apply ensure_ws_nonempty.
  - intros x c. apply ensure_ws_nonempty.
Qed.

Lemma ensure_ws_header_witness :
  connects env_ok w_empty = true
  /\ sheet_calls_ok env_ok = true
  /\ sheet (snd (_ensure_ws WS_TITLE HEADERS env_ok w_empty)) = Some [HEADERS].
Proof.
  split; [reflexivity|]. split; [reflexivity|].
  destruct (ensure_ws_header WS_TITLE HEADERS env_ok env_ok w_empty)
    as (H & _).
  destruct (H eq_refl eq_refl) as (_ & -> & _). reflexivity.
Defined.

(** X16. When nothing fails, a valid submission ends up twice, alike: the
    record added to the table and the row added at the end of the worksheet
    hold the same six values in the same order, each after its own time
    stamp, and the row has as many values as [HEADERS]. The row comes after
    the rows the worksheet had; a worksheet that was missing or had no row
    gets [HEADERS] as its first row before that, and a worksheet that had
    rows is not looked into: whatever its first row is, it stays. *)
Theorem oddaj_mirrors_record (f : Form) env w t :
  required_ok f = true ->
  find (offending f) PREDMETI = None ->
  store_ok env = true ->
  table w = Some t ->
  Sql.next_rowid t <= Sql.MAX_ROWID ->
  connects env w = true ->
  sheet_calls_ok env = true ->
  row_append_ok env = true ->
  exists rec row,
    option_map rows (table (snd (oddaj f env w))) = Some (rows t ++ [rec])
    /\ sheet (snd (oddaj f env w))
       = Some (match sheet w with
               | None | Some [] => [HEADERS]
               | Some content => content
               end ++ [row])
    /\ row = [now_sheet env; ime rec; priimek rec; email rec; razred rec;
              oddelek rec; predmeti rec]
    /\ datum rec = now_db env
    /\ List.length row = List.length HEADERS.
Proof.
  intros Hr Hf Hok Ht Hroom Hc Hk Hrow.
  destruct (oddaj_persisted f env w t Hr Hf Hok Ht Hroom) as [_ Hp].
  eexists. eexists. rewrite Hp. cbn [option_map rows].
  split; [reflexivity|].
  cbn [ime priimek email razred oddelek predmeti datum].
  split; [|split; [reflexivity | split; reflexivity]].
  rewrite (oddaj_valid f env w Hr Hf). cbv beta delta [bind].
  rewrite (add_vnos_run _ _ _ _ _ _ env w t _ Hok Ht
             (insert_some _ _ _ _ _ _ _ _ Hroom)).
  match goal with
  | |- context [mirror_block ?i ?p ?e ?r ?o ?s env ?w1] =>
    destruct (mirror_block_run i p e r o s env w1) as (wm & evs & Hm & _ & _);
    pose proof (mirror_block_sheet i p e r o s env w1 Hc Hk Hrow) as Hs
  end.
  rewrite Hm in *. cbn [snd] in Hs. cbn. exact Hs.
Qed.

Lemma oddaj_mirrors_record_witness :
  required_ok form_ana = true
  /\ store_ok env_ok = true
  /\ connects env_ok w_empty = true
  /\ option_map (map (fun row => List.length row))
                (sheet (snd (oddaj form_ana env_ok w_empty)))
     = Some [7%nat; 7%nat].
Proof.
  split; [reflexivity|]. split; [reflexivity|]. split; [reflexivity|].
  destruct (oddaj_mirrors_record form_ana env_ok w_empty (mkTable [] 0))
    as (rec & row & _ & Hs & _ & _ & Hlen);
    [reflexivity | reflexivity | reflexivity | reflexivity
     | vm_compute; discriminate | reflexivity | reflexivity | reflexivity |].
  rewrite Hs. cbn [sheet w_empty option_map map app]. rewrite Hlen.
  reflexivity.
Defined.

(** ** More on [oddaj] *)

Lemma lstrip_decomp (l : pystr) :
  exists pre, l = pre ++ Py.lstrip l.
Proof.
  induction l as [|c l [pre IH]]; simpl.
  - now exists [].
  - destruct (Py.is_space c); [|now exists []].
    exists (c :: pre). simpl. now rewrite <- IH.
Qed.

Lemma strip_trimmed (s : pystr) : trimmed (Py.strip s).
Proof.
  unfold Py.strip, Py.rstrip.
  destruct (Py.lstrip (rev (Py.lstrip s))) as [|d b'] eqn:Eb; [exact I|].
  pose proof (lstrip_head _ _ _ Eb) as Hd.
  destruct (lstrip_decomp (rev (Py.lstrip s))) as [pre Hpre].
  rewrite Eb in Hpre.
  apply (f_equal (@rev N)) in Hpre. rewrite rev_involutive, rev_app_distr in Hpre.
  unfold trimmed. destruct (rev (d :: b')) as [|c q] eqn:Et.
  - exact I.
  - split.
    + cbn [app] in Hpre. exact (lstrip_head _ _ _ Hpre).
    + simpl in Et. rewrite <- Et. now rewrite last_last.
Qed.

Lemma strip_sub (P : N -> bool) (s : pystr) :
  forallb P s = true -> forallb P (Py.strip s) = true.
Proof.
  assert (Hl : forall l, forallb P l = true -> forallb P (Py.lstrip l) = true).
  { intros l H. destruct (lstrip_decomp l) as [pre E].
    rewrite E, forallb_app in H. now apply andb_true_iff in H. }
  assert (Hrev : forall l, forallb P (rev l) = forallb P l).
  { induction l as [|c l IH]; simpl; [reflexivity|].
    rewrite forallb_app, IH. simpl. rewrite andb_true_r. apply andb_comm. }
  intros H. unfold Py.strip, Py.rstrip. rewrite Hrev. apply Hl.
  rewrite Hrev. now apply Hl.
Qed.

Lemma field_scalar (f : Form) (key : pystr) :
  form_text_ok f ->
  forallb Utf8.scalar (Py.strip (form_get_d f key [])) = true.
Proof.
  intros H. apply strip_sub. unfold form_get_d.
  destruct (form_get f key) as [v|] eqn:E; [exact (H key v E) | reflexivity].
Qed.

Lemma summary_scalar (f : Form) :
  form_text_ok f -> forallb Utf8.scalar (summary f) = true.
Proof.
  intros H. unfold summary.
  assert (Hseg : forallb (forallb Utf8.scalar) (segments f PREDMETI) = true).
  { unfold segments. rewrite forallb_forall. intros x Hx.
    apply in_map_iff in Hx as (p & <- & Hp). apply filter_In in Hp as [Hp _].
    rewrite !forallb_app. unfold teacher_of. rewrite (field_scalar f _ H).
    assert (Hlab : forallb (fun q => forallb Utf8.scalar (snd q)) PREDMETI = true)
      by reflexivity.
    rewrite forallb_forall in Hlab. rewrite (Hlab p Hp). reflexivity. }
  destruct (segments f PREDMETI) as [|x xs] eqn:E; [reflexivity|].
  apply scalar_join; [reflexivity | exact Hseg].
Qed.

(** X17. [oddaj] reads the form under the five required names and, for the
    subjects of the catalog, under their checkbox and teacher names, and
    nowhere else: two forms that agree there are treated alike, whatever
    else they hold (a checkbox of a subject that is not in the catalog, a
    password, an id). *)
Theorem oddaj_reads_known_keys (f f' : Form) env w :
  (forall k, In k known_keys -> form_get f' k = form_get f k) ->
  oddaj f' env w = oddaj f env w.
Proof.
  intros H. apply oddaj_agree.
  - intros name Hn. unfold field, form_get_d. rewrite H; [reflexivity|].
    unfold known_keys. apply in_or_app. left. now apply in_map.
  - intros p Hp. unfold checked, is_on. rewrite H; [reflexivity|].
    unfold known_keys. apply in_or_app. right. apply in_or_app. left.
    now apply in_map.
  - intros p Hp _. unfold teacher_of, form_get_d. rewrite H; [reflexivity|].
    unfold known_keys. apply in_or_app. right. apply in_or_app. right.
    now apply in_map.
Qed.

Lemma oddaj_reads_known_keys_witness :
  form_get form_extra_keys (u "chk_lat") = Some (u "on")
  /\ oddaj form_extra_keys env_ok w_empty = oddaj form_ana env_ok w_empty.
Proof.
  split; [reflexivity|].
  apply (oddaj_reads_known_keys form_ana form_extra_keys env_ok w_empty).
  intros k Hk. unfold form_extra_keys. rewrite form_get_app.
  destruct (form_get form_ana k) as [v|] eqn:E; [reflexivity|].
  unfold known_keys in Hk. cbn [map app REQUIRED PREDMETI] in Hk.
  repeat (destruct Hk as [<-|Hk]; [first [discriminate E | reflexivity]|]).
  destruct Hk.
Defined.

(** X18. The five fields of the record [oddaj] adds are not empty and carry
    no white space at either end, however the form padded them. *)
Theorem oddaj_fields_trimmed (f : Form) env w t :
  required_ok f = true ->
  find (offending f) PREDMETI = None ->
  store_ok env = true ->
  table w = Some t ->
  Sql.next_rowid t <= Sql.MAX_ROWID ->
  exists rec,
    option_map rows (table (snd (oddaj f env w))) = Some (rows t ++ [rec])
    /\ Forall (fun x => x <> [] /\ trimmed x)
              [ime rec; priimek rec; email rec; razred rec; oddelek rec].
Proof.
  intros Hr Hf Hok Ht Hroom.
  destruct (oddaj_persisted f env w t Hr Hf Hok Ht Hroom) as [_ Hp].
  eexists. rewrite Hp. cbn [option_map rows]. split; [reflexivity|].
  cbn [ime priimek email razred oddelek].
  repeat constructor;
    first [ apply (field_truthy f _ Hr); simpl; tauto
          | apply strip_trimmed ].
Qed.

Lemma oddaj_fields_trimmed_witness :
  required_ok [ (u "ime", u "  Ana "); (u "priimek", u "Novak");
                (u "email", u "a@x.si"); (u "razred", u "2. letnik");
                (u "oddelek", u " b") ] = true
  /\ store_ok env_ok = true
  /\ exists rec,
      option_map rows
        (table (snd (oddaj [ (u "ime", u "  Ana "); (u "priimek", u "Novak");
                             (u "email", u "a@x.si");
                             (u "razred", u "2. letnik");
                             (u "oddelek", u " b") ] env_ok w_empty)))
      = Some [rec]
      /\ trimmed (ime rec).
Proof.
  split; [reflexivity|]. split; [reflexivity|].
  destruct (oddaj_fields_trimmed
              [ (u "ime", u "  Ana "); (u "priimek", u "Novak");
                (u "email", u "a@x.si"); (u "razred", u "2. letnik");
                (u "oddelek", u " b") ] env_ok w_empty (mkTable [] 0))
    as (rec & Hrows & Hall);
    [reflexivity | reflexivity | reflexivity | reflexivity
     | vm_compute; discriminate |].
  exists rec. split; [exact Hrows|].
  inversion Hall as [|? ? [_ H] _]. exact H.
Defined.

(** X19. Whatever the form holds and whatever fails, [oddaj] leaves the
    table as it was or with exactly one more record, put after the records
    that were there; it never changes or removes a record, and it adds one
    only for a form that passes validation. *)
Theorem oddaj_adds_at_most_one (f : Form) env w :
  table (snd (oddaj f env w)) = table w
  \/ exists t rec,
      table w = Some t
      /\ required_ok f = true
      /\ find (offending f) PREDMETI = None
      /\ table (snd (oddaj f env w))
         = Some (mkTable (rows t ++ [rec]) (id rec))
      /\ (forall x, In x (rows t) -> id x < id rec).
Proof.
  destruct (oddaj_table f env w) as [H|(t & Ht & Hr & Hf & _ & H)];
    [now left|].
  right. exists t.
  exists (mkRow (Sql.next_rowid t) (now_db env) (field f "ime")
                (field f "priimek") (field f "email") (field f "razred")
                (field f "oddelek") (summary f)).
  rewrite H. split; [exact Ht|]. split; [exact Hr|]. split; [exact Hf|].
  split; [reflexivity|]. intros x. cbn [id]. apply next_rowid_fresh.
Qed.

(** X20. The listing page and the export read only: whoever asks and
    whatever fails, they leave the table and the worksheet as they were, and
    so do the form page and the login page, which do nothing at all. *)
Theorem pages_read_only (s : Session) env w :
  table (snd (admin_panel s env w)) = table w
  /\ sheet (snd (admin_panel s env w)) = sheet w
  /\ table (snd (export_csv s env w)) = table w
  /\ sheet (snd (export_csv s env w)) = sheet w
  /\ snd (index env w) = w
  /\ snd (admin_login s env w) = w.
Proof.
  assert (Hl : table (snd (all_vnosi env w)) = table w
               /\ sheet (snd (all_vnosi env w)) = sheet w).
  { split; [apply all_vnosi_table|]. run_store. split_store; reflexivity. }
  assert (Hp : table (snd (admin_panel s env w)) = table w
               /\ sheet (snd (admin_panel s env w)) = sheet w).
  { unfold admin_panel. destruct (admin_ok s); cbn [negb];
      [|split; reflexivity].
    cbv beta delta [bind].
    destruct (all_vnosi env w) as [[l|x] w1]; exact Hl. }
  assert (He : table (snd (export_csv s env w)) = table w
               /\ sheet (snd (export_csv s env w)) = sheet w).
  { unfold export_csv. destruct (admin_ok s); cbn [negb];
      [|split; reflexivity].
    cbv beta delta [bind].
    destruct (all_vnosi env w) as [[l|x] w1]; [|exact Hl].
    destruct (Utf8.encode_sig _); exact Hl. }
  destruct Hp as [Hp1 Hp2]. destruct He as [He1 He2].
  split; [exact Hp1|]. split; [exact Hp2|]. split; [exact He1|].
  split; [exact He2|]. split; [reflexivity|].
  unfold admin_login. now destruct (admin_ok s).
Qed.

(** X21. When the values of the form and the time stamp are made of Unicode
    scalar values, so is every text of the record [oddaj] adds: a table whose
    texts can be encoded for the export stays so, whatever fails. *)
Theorem oddaj_keeps_text (f : Form) env w :
  form_text_ok f ->
  forallb Utf8.scalar (now_db env) = true ->
  match table w with
  | Some t => forallb row_text_ok (rows t) = true
  | None => True
  end ->
  match table (snd (oddaj f env w)) with
  | Some t' => forallb row_text_ok (rows t') = true
  | None => True
  end.
Proof.
  intros Hform Hnow Hw.
  destruct (oddaj_table f env w) as [->|(t & Ht & _ & _ & _ & ->)];
    [exact Hw|].
  rewrite Ht in Hw. cbn [rows]. rewrite forallb_app, Hw. cbn [forallb andb].
  rewrite andb_true_r. unfold row_text_ok.
  cbn [datum ime priimek email razred oddelek predmeti forallb].
  unfold field. rewrite Hnow, !(field_scalar f _ Hform), (summary_scalar f Hform).
  reflexivity.
Qed.

Lemma oddaj_keeps_text_witness :
  form_text_ok form_ana
  /\ match table (snd (oddaj form_ana env_ok w_two_rows)) with
     | Some t' => forallb row_text_ok (rows t') = true
     | None => True
     end.
Proof.
  assert (H : form_text_ok form_ana).
  { intros k v. unfold form_ana. cbn [form_get].
    repeat (destruct (Py.eqb _ k);
            [intros E; injection E as <-; reflexivity|]).
    discriminate. }
  split; [exact H|].
  apply (oddaj_keeps_text form_ana env_ok w_two_rows H); reflexivity.
Defined.

(** X22. A request that is answered normally leaves no connection to the
    database open behind it: after [oddaj], the listing page, the deletion
    or the export have returned, the open connections are those of
    before. *)
Theorem routes_close_connections (f : Form) (s : Session) (row_id : Z) env w :
  (is_ok (fst (oddaj f env w)) = true ->
   open_conns (snd (oddaj f env w)) = open_conns w)
  /\ (is_ok (fst (admin_panel s env w)) = true ->
      open_conns (snd (admin_panel s env w)) = open_conns w)
  /\ (is_ok (fst (admin_delete row_id s env w)) = true ->
      open_conns (snd (admin_delete row_id s env w)) = open_conns w)
  /\ (is_ok (fst (export_csv s env w)) = true ->
      open_conns (snd (export_csv s env w)) = open_conns w).
Proof.
  assert (Hlist : is_ok (fst (all_vnosi env w)) = true ->
                  open_conns (snd (all_vnosi env w)) = open_conns w).
  { intros H. destruct (all_vnosi_scoped env w) as (evs & _ & _ & Hc).
    now apply Hc. }
  assert (Hdel : is_ok (fst (delete_vnos row_id env w)) = true ->
                 open_conns (snd (delete_vnos row_id env w)) = open_conns w).
  { intros H. destruct (delete_vnos_scoped row_id env w) as (evs & _ & _ & Hc).
    now apply Hc. }
  split; [|split; [|split]].
  - destruct (required_ok f) eqn:Hr;
      [|now rewrite (oddaj_required f env w Hr)].
    destruct (find (offending f) PREDMETI) as [p|] eqn:Hf;
      [now rewrite (oddaj_offending f p env w Hr Hf)|].
    rewrite (oddaj_valid f env w Hr Hf). cbv beta delta [bind].
    destruct (add_vnos (field f "ime") (field f "priimek") (field f "email")
                (field f "razred") (field f "oddelek") (summary f) env w)
      as [[v|x] w1] eqn:Ea; [|discriminate].
    destruct (add_vnos_ok_inv _ _ _ _ _ _ _ _ _ _ Ea) as (t & t' & _ & _ & _ & ->).
    match goal with
    | |- context [mirror_block ?i ?p ?e ?r ?o ?s env ?w1] =>
      destruct (mirror_block_run i p e r o s env w1)
        as (wm & evs & Hm & (_ & Ho & _) & _)
    end.
    rewrite Hm. cbn. intros _. exact Ho.
  - unfold admin_panel. destruct (admin_ok s); cbn [negb]; [|reflexivity].
    cbv beta delta [bind].
    destruct (all_vnosi env w) as [[l|x] w1]; cbn in *; auto.
  - unfold admin_delete. destruct (admin_ok s); cbn [negb]; [|reflexivity].
    cbv beta delta [bind].
    destruct (delete_vnos row_id env w) as [[l|x] w1]; cbn in *; auto.
  - unfold export_csv. destruct (admin_ok s); cbn [negb]; [|reflexivity].
    cbv beta delta [bind].
    destruct (all_vnosi env w) as [[l|x] w1]; cbn [fst snd] in *;
      [|discriminate].
    destruct (Utf8.encode_sig _); cbn; auto.
Qed.

Lemma routes_close_connections_witness :
  is_ok (fst (oddaj form_ana env_ok w_two_rows)) = true
  /\ open_conns (snd (oddaj form_ana env_ok w_two_rows)) = [].
Proof.
  split; [reflexivity|].
  destruct (routes_close_connections form_ana None 0 env_ok w_two_rows)
    as (H & _).
  now apply H.
Defined.
